(** * Restaurant ordering API: a shallow embedding of [main.py] and [schemas.py]

    The development follows the layout of the repository:

    - Python values as the handlers see them: floats (IEEE 754 binary64,
      through [SpecFloat]), the built-in [round], dictionaries ([gmap]);
    - the pydantic models of [schemas.py] with their [Field] constraints;
    - the document-store gateway ([database.py]);
    - the handlers of [main.py], written in a small state-and-exception
      monad over the store;
    - the properties of the handlers. *)

From stdpp Require Import gmap strings list fin_maps pretty.
From Stdlib Require Import ZArith SpecFloat.

#[local] Set Warnings "-register-all".
#[local] Open Scope Z_scope.

(** ** Python floats *)

(** A Python [float] is an IEEE 754 binary64 number: 53 bits of precision,
    exponents below 1024.  The operations are those of [SpecFloat], which
    round to nearest, ties to even. *)
Module PyFloat.

Definition prec : Z := 53.
Definition emax : Z := 1024.

Abbreviation float := spec_float.

Definition add : float -> float -> float := SFadd prec emax.
Definition mul : float -> float -> float := SFmul prec emax.
Definition div : float -> float -> float := SFdiv prec emax.
Definition leb : float -> float -> bool := SFleb.
Definition ltb : float -> float -> bool := SFltb.

Definition zero : float := S754_zero false.

(** The double nearest to the fraction [n / d]: what a decimal literal such
    as [0.08] denotes ([decimal 8 100]). *)
Definition decimal (n d : positive) : float :=
  div (S754_finite false n 0) (S754_finite false d 0).

(** [float(n)] for a Python [int]: the nearest double, and [OverflowError]
    ([None]) when [n] is too large to convert. *)
Definition of_int (n : Z) : option float :=
  match binary_normalize prec emax n 0 false with
  | S754_infinity _ => None
  | f => Some f
  end.

(** Division of integers rounded to the nearest integer, ties to even. *)
Definition div_half_even (a : Z) (b : positive) : Z :=
  let (q, r) := Z.div_eucl a (Zpos b) in
  match 2 * r ?= Zpos b with
  | Lt => q
  | Gt => q + 1
  | Eq => if Z.even q then q else q + 1
  end.

(** The exact value [m * 2^e], scaled by [10^ndigits] and rounded to the
    nearest integer, ties to even. *)
Definition scaled_half_even (ndigits : nat) (m : positive) (e : Z) : Z :=
  let scale := 10 ^ Z.of_nat ndigits in
  match e with
  | Zneg k => div_half_even (scale * Zpos m) (2 ^ k)%positive
  | _ => scale * Zpos m * 2 ^ e
  end.

(** The built-in [round(x, ndigits)] for a float [x] and [ndigits >= 0]:
    CPython prints [x] with [ndigits] decimals, correctly rounded (ties of
    the exact binary value go to the even digit), and reads the decimal
    string back as the nearest double.  Zeros, infinities and NaN round to
    themselves; the sign is kept when the result is zero. *)
Definition round (x : float) (ndigits : nat) : float :=
  match x with
  | S754_finite s m e =>
      match scaled_half_even ndigits m e with
      | Zpos n =>
          div (S754_finite s n 0)
              (S754_finite false (Z.to_pos (10 ^ Z.of_nat ndigits)) 0)
      | _ => S754_zero s
      end
  | _ => x
  end.

(** A float that is not NaN and not below zero.  [-0.0] counts: in Python
    [-0.0 >= 0] holds. *)
Definition nonneg (x : float) : bool :=
  match x with
  | S754_zero _ => true
  | S754_infinity s => negb s
  | S754_finite s _ _ => negb s
  | S754_nan => false
  end.

(** The sign of a float that is not NaN. *)
Definition signed (s : bool) (x : float) : Prop :=
  match x with
  | S754_zero s' | S754_infinity s' | S754_finite s' _ _ => s' = s
  | S754_nan => False
  end.

End PyFloat.

Import PyFloat.

(** ** Python values, exceptions and the handler monad *)

(** The values found in JSON bodies and in stored documents.  [VOid] is the
    store-native identifier (an ObjectId); a [dict] with string keys is a
    finite map. *)
Inductive Value :=
  | VNone
  | VBool (b : bool)
  | VInt (n : Z)
  | VFloat (x : float)
  | VStr (s : string)
  | VOid (n : N)
  | VList (l : list Value)
  | VDict (d : gmap string Value).

Abbreviation Doc := (gmap string Value).

(** [d.get(key)] and [d.get(key, default)]. *)
Definition dict_get (d : Doc) (key : string) : Value := default VNone (d !! key).
Definition dict_get_default (d : Doc) (key : string) (dflt : Value) : Value :=
  default dflt (d !! key).

(** [s[:n]]: the first [n] characters of a string, a character of the
    model being one [ascii]. *)
Definition str_prefix (n : nat) (s : string) : string := String.substring 0 n s.

(** The exceptions a handler can end with.  [StoreError] is an exception of
    the store that nobody caught, kept with its message [str(e)]. *)
Inductive exn :=
  | HTTPException (status_code : Z) (detail : string)
  | RequestValidationError (loc : string)
  | ValidationError (loc : string)
  | OverflowError
  | StoreError (message : string).

Inductive outcome (E A : Type) :=
  | Returns (a : A)
  | Raises (e : E).
Arguments Returns {E A} a.
Arguments Raises {E A} e.

(** The status code FastAPI answers with: the route's success code, the code
    of an [HTTPException], 422 for a body that fails validation, and 500 for
    any exception that escapes the handler. *)
Definition http_status {A} (success : Z) (r : outcome exn A) : Z :=
  match r with
  | Returns _ => success
  | Raises (HTTPException code _) => code
  | Raises (RequestValidationError _) => 422
  | Raises _ => 500
  end.

(** Sequencing of steps that return or raise: the first that raises ends
    the whole. *)
Definition pure_bind {E A B} (r : outcome E A) (k : A -> outcome E B) : outcome E B :=
  match r with
  | Returns a => k a
  | Raises e => Raises e
  end.

Notation "'do' x <- r ; k" := (pure_bind r (fun x => k))
  (at level 10, x name, r at level 100, k at level 200).

(** ** The models of [schemas.py] *)

(** An instance of a model is a record of typed fields.  The [Field]
    constraints are checked by the constructors further down. *)
Module MenuItem.
Record t := {
  name : string;
  description : option string;
  price : float;
  category : string;
  image_url : option string;
  is_available : bool
}.
End MenuItem.

Module OrderItem.
Record t := {
  menu_item_id : string;
  name : string;
  unit_price : float;
  quantity : Z;
  notes : option string
}.
End OrderItem.

Module Customer.
Record t := {
  name : string;
  email : option string;
  phone : option string
}.
End Customer.

Module Order.
Record t := {
  customer : Customer.t;
  items : list OrderItem.t;
  subtotal : float;
  tax : float;
  total : float;
  status : string;
  table_number : option string;
  pickup : bool
}.
End Order.

(** [CreateOrderRequest] of [main.py]. *)
Module CreateOrderRequest.
Record t := {
  customer : Customer.t;
  items : list OrderItem.t;
  table_number : option string;
  pickup : bool
}.
End CreateOrderRequest.

(** What can be handed to the store: a model (dumped field by field) or a
    plain [dict]. *)
Class Document (A : Type) := to_document : A -> Doc.

Definition opt_str (o : option string) : Value :=
  match o with
  | Some s => VStr s
  | None => VNone
  end.

#[export] Instance Doc_document : Document Doc := fun d => d.

#[export] Instance MenuItem_document : Document MenuItem.t := fun m =>
  <["name" := VStr (MenuItem.name m)]>
  (<["description" := opt_str (MenuItem.description m)]>
  (<["price" := VFloat (MenuItem.price m)]>
  (<["category" := VStr (MenuItem.category m)]>
  (<["image_url" := opt_str (MenuItem.image_url m)]>
  (<["is_available" := VBool (MenuItem.is_available m)]> ∅))))).

#[export] Instance OrderItem_document : Document OrderItem.t := fun oi =>
  <["menu_item_id" := VStr (OrderItem.menu_item_id oi)]>
  (<["name" := VStr (OrderItem.name oi)]>
  (<["unit_price" := VFloat (OrderItem.unit_price oi)]>
  (<["quantity" := VInt (OrderItem.quantity oi)]>
  (<["notes" := opt_str (OrderItem.notes oi)]> ∅)))).

#[export] Instance Customer_document : Document Customer.t := fun c =>
  <["name" := VStr (Customer.name c)]>
  (<["email" := opt_str (Customer.email c)]>
  (<["phone" := opt_str (Customer.phone c)]> ∅)).

#[export] Instance Order_document : Document Order.t := fun o =>
  <["customer" := VDict (to_document (Order.customer o))]>
  (<["items" := VList (map (fun oi => VDict (to_document oi)) (Order.items o))]>
  (<["subtotal" := VFloat (Order.subtotal o)]>
  (<["tax" := VFloat (Order.tax o)]>
  (<["total" := VFloat (Order.total o)]>
  (<["status" := VStr (Order.status o)]>
  (<["table_number" := opt_str (Order.table_number o)]>
  (<["pickup" := VBool (Order.pickup o)]> ∅))))))).

(** *** Field validation *)

(** The checks pydantic runs on one field.  A value of the annotated type is
    taken as it is, and an [int] is accepted for a [float] when it converts
    to one; the further coercions of pydantic's lax mode (numbers written as
    strings, booleans as numbers, a float without fraction as an int) are
    left out: such inputs are reported as invalid here. *)
Definition as_str (loc : string) (v : Value) : outcome exn string :=
  match v with
  | VStr s => Returns s
  | _ => Raises (ValidationError loc)
  end.

Definition as_optional_str (loc : string) (v : Value) : outcome exn (option string) :=
  match v with
  | VNone => Returns None
  | VStr s => Returns (Some s)
  | _ => Raises (ValidationError loc)
  end.

Definition as_float (loc : string) (v : Value) : outcome exn float :=
  match v with
  | VFloat x => Returns x
  | VInt n =>
      match of_int n with
      | Some x => Returns x
      | None => Raises (ValidationError loc)
      end
  | _ => Raises (ValidationError loc)
  end.

Definition as_int (loc : string) (v : Value) : outcome exn Z :=
  match v with
  | VInt n => Returns n
  | _ => Raises (ValidationError loc)
  end.

Definition as_bool (loc : string) (v : Value) : outcome exn bool :=
  match v with
  | VBool b => Returns b
  | _ => Raises (ValidationError loc)
  end.

(** [Field(..., ge=0)] on a float: the comparison [x >= 0] of Python, false
    for NaN. *)
Definition ge_float (loc : string) (bound x : float) : outcome exn float :=
  if leb bound x then Returns x else Raises (ValidationError loc).

(** [Field(..., ge=1)] on an int. *)
Definition ge_int (loc : string) (bound n : Z) : outcome exn Z :=
  if bound <=? n then Returns n else Raises (ValidationError loc).

(** *** Model constructors *)

(** [MenuItem(name=..., description=..., price=..., category=...,
    image_url=..., is_available=...)]. *)
Definition MenuItem_init (name description price category image_url is_available : Value)
  : outcome exn MenuItem.t :=
  do name <- as_str "name" name;
  do description <- as_optional_str "description" description;
  do price <- as_float "price" price;
  do price <- ge_float "price" zero price;
  do category <- as_str "category" category;
  do image_url <- as_optional_str "image_url" image_url;
  do is_available <- as_bool "is_available" is_available;
  Returns {| MenuItem.name := name; MenuItem.description := description;
             MenuItem.price := price; MenuItem.category := category;
             MenuItem.image_url := image_url;
             MenuItem.is_available := is_available |}.

Definition OrderItem_init (menu_item_id name unit_price quantity notes : Value)
  : outcome exn OrderItem.t :=
  do menu_item_id <- as_str "menu_item_id" menu_item_id;
  do name <- as_str "name" name;
  do unit_price <- as_float "unit_price" unit_price;
  do unit_price <- ge_float "unit_price" zero unit_price;
  do quantity <- as_int "quantity" quantity;
  do quantity <- ge_int "quantity" 1 quantity;
  do notes <- as_optional_str "notes" notes;
  Returns {| OrderItem.menu_item_id := menu_item_id; OrderItem.name := name;
             OrderItem.unit_price := unit_price; OrderItem.quantity := quantity;
             OrderItem.notes := notes |}.

(** [Order(customer=..., items=..., subtotal=..., tax=..., total=...,
    status=..., table_number=..., pickup=...)], called with instances of
    the nested models and values of the annotated types: what is left to
    check are the three [ge=0] constraints. *)
Definition Order_init (customer : Customer.t) (items : list OrderItem.t)
    (subtotal tax total : float) (status : string)
    (table_number : option string) (pickup : bool) : outcome exn Order.t :=
  do subtotal <- ge_float "subtotal" zero subtotal;
  do tax <- ge_float "tax" zero tax;
  do total <- ge_float "total" zero total;
  Returns {| Order.customer := customer; Order.items := items;
             Order.subtotal := subtotal; Order.tax := tax; Order.total := total;
             Order.status := status; Order.table_number := table_number;
             Order.pickup := pickup |}.

(** A model read from a JSON object: a field that is absent takes its
    default, and a required field that is absent is invalid, as [None] is. *)
Definition MenuItem_validate (body : Value) : outcome exn MenuItem.t :=
  match body with
  | VDict d =>
      MenuItem_init (dict_get d "name") (dict_get d "description")
        (dict_get d "price") (dict_get d "category") (dict_get d "image_url")
        (dict_get_default d "is_available" (VBool true))
  | _ => Raises (ValidationError "body")
  end.

Definition OrderItem_validate (body : Value) : outcome exn OrderItem.t :=
  match body with
  | VDict d =>
      OrderItem_init (dict_get d "menu_item_id") (dict_get d "name")
        (dict_get d "unit_price") (dict_get d "quantity") (dict_get d "notes")
  | _ => Raises (ValidationError "items")
  end.

(** [[f(x) for x in l]], and the validation of a list field element by
    element: the first element that raises ends the whole. *)
Fixpoint traverse {A B} (f : A -> outcome exn B) (l : list A) : outcome exn (list B) :=
  match l with
  | [] => Returns []
  | x :: rest =>
      do b <- f x;
      do others <- traverse f rest;
      Returns (b :: others)
  end.

(** ** The document store *)

(** Modelled from the spec: [database.py] (the handle [db] and the helpers
    [create_document] and [get_documents]) is not among the sources.  The
    spec describes a gateway with create and read over named collections of
    documents, which hands out an identifier for each record it creates,
    writes a document wholly or not at all, and may fail on any call.

    A database holds its collections in store order, the next identifier
    to hand out, and the fate of the calls to come: [Some msg] makes the
    next call raise an exception whose text is [msg], [None] lets it go
    through, and once the list is used up every call goes through. *)
Record Database := {
  collections : gmap string (list Doc);
  next_id : N;
  faults : list (option string)
}.

(** The module-level handle [db]: [None] when no store is configured. *)
Definition Store := option Database.

(** A computation over the store that returns or raises.  Exceptions of the
    store are kept as their text [str(e)], the only thing the handlers read
    from them. *)
Definition M (E A : Type) : Type := Store -> Store * outcome E A.

Definition ret {E A} (a : A) : M E A := fun st => (st, Returns a).
Definition raise {E A} (e : E) : M E A := fun st => (st, Raises e).

Definition bind {E A B} (m : M E A) (k : A -> M E B) : M E B :=
  fun st =>
    match m st with
    | (st', Returns a) => k a st'
    | (st', Raises e) => (st', Raises e)
    end.

Notation "'let*' x := m 'in' k" := (bind m (fun x => k))
  (at level 10, x name, m at level 100, k at level 200).

(** [try: body  except Exception as e: handler]. *)
Definition try_except {E E' A} (body : M E A) (handler : E -> M E' A) : M E' A :=
  fun st =>
    match body st with
    | (st', Returns a) => (st', Returns a)
    | (st', Raises e) => handler e st'
    end.

(** A store call outside any [try]: its exception leaves the handler. *)
Definition uncaught {A} (m : M string A) : M exn A :=
  try_except m (fun e => raise (StoreError e)).

(** A computation that does not touch the store. *)
Definition lift {E A} (r : outcome E A) : M E A := fun st => (st, r).

(** [for x in xs: acc = body(x, acc)]. *)
Fixpoint for_each {E A S} (xs : list A) (body : A -> S -> M E S) (acc : S) : M E S :=
  match xs with
  | [] => ret acc
  | x :: rest => let* acc' := body x acc in for_each rest body acc'
  end.

(** [db is not None]. *)
Definition db_is_not_None {E} : M E bool :=
  fun st => (st, Returns (bool_decide (is_Some st))).

(** The fault due at the next call, if any, and the database once that call
    has been made. *)
Definition next_fault (d : Database) : option string :=
  match faults d with
  | Some msg :: _ => Some msg
  | _ => None
  end.

Definition after_call (d : Database) : Database :=
  {| collections := collections d; next_id := next_id d; faults := tail (faults d) |}.

(** Modelled from the spec: one call into the store, of the absent
    [database.py] or of the driver behind [db].  It raises when no store is
    configured (the spec treats the absent store as a store failure) or when
    a fault is due, and runs [op] otherwise. *)
Definition store_call {A} (op : Database -> Database * A) : M string A :=
  fun st =>
    match st with
    | None => (None, Raises "Database not available")
    | Some d =>
        match next_fault d with
        | Some msg => (Some (after_call d), Raises msg)
        | None => let (d', a) := op (after_call d) in (Some d', Returns a)
        end
    end.

(** The documents of a collection, in store order. *)
Definition documents_of (d : Database) (collection_name : string) : list Doc :=
  default [] (collections d !! collection_name).

(** Modelled from the spec: the [limit] of a read of the absent
    [database.py], which the spec words as up to [limit] records; no limit
    returns the whole collection. *)
Definition apply_limit (limit : option Z) (docs : list Doc) : list Doc :=
  match limit with
  | Some n => take (Z.to_nat n) docs
  | None => docs
  end.

(** ** The handlers of [main.py] *)

(** The bodies of the JSON replies, one record per shape. *)
Module TestReply.
Record t := {
  backend : string;
  database : string;
  collections : list string
}.
End TestReply.

(** [response["database"] = v] and [response["collections"] = l]. *)
Definition set_database (v : string) (r : TestReply.t) : TestReply.t :=
  {| TestReply.backend := TestReply.backend r; TestReply.database := v;
     TestReply.collections := TestReply.collections r |}.

Definition set_collections (l : list string) (r : TestReply.t) : TestReply.t :=
  {| TestReply.backend := TestReply.backend r;
     TestReply.database := TestReply.database r; TestReply.collections := l |}.

Module SeedReply.
Record t := {
  inserted : Z;
  message : option string
}.
End SeedReply.

Module OrderReply.
Record t := {
  id : string;
  total : float
}.
End OrderReply.

Section Handlers.

(** The built-in [str] on values (the handlers apply it to identifiers of
    the store) and the syntax check behind [EmailStr]: both live outside
    the repository and are taken as they come. *)
Variable py_str : Value -> string.
Variable is_email : string -> bool.

(** *** Request models *)

Definition as_optional_email (loc : string) (v : Value) : outcome exn (option string) :=
  match v with
  | VNone => Returns None
  | VStr s => if is_email s then Returns (Some s) else Raises (ValidationError loc)
  | _ => Raises (ValidationError loc)
  end.

Definition Customer_validate (body : Value) : outcome exn Customer.t :=
  match body with
  | VDict d =>
      do name <- as_str "name" (dict_get d "name");
      do email <- as_optional_email "email" (dict_get d "email");
      do phone <- as_optional_str "phone" (dict_get d "phone");
      Returns {| Customer.name := name; Customer.email := email;
                 Customer.phone := phone |}
  | _ => Raises (ValidationError "customer")
  end.

Definition as_list (loc : string) (v : Value) : outcome exn (list Value) :=
  match v with
  | VList l => Returns l
  | _ => Raises (ValidationError loc)
  end.

Definition CreateOrderRequest_validate (body : Value)
  : outcome exn CreateOrderRequest.t :=
  match body with
  | VDict d =>
      do customer <- Customer_validate (dict_get d "customer");
      do raw_items <- as_list "items" (dict_get d "items");
      do items <- traverse OrderItem_validate raw_items;
      do table_number <- as_optional_str "table_number" (dict_get d "table_number");
      do pickup <- as_bool "pickup" (dict_get_default d "pickup" (VBool false));
      Returns {| CreateOrderRequest.customer := customer;
                 CreateOrderRequest.items := items;
                 CreateOrderRequest.table_number := table_number;
                 CreateOrderRequest.pickup := pickup |}
  | _ => Raises (ValidationError "body")
  end.

(** *** The gateway *)

(** Modelled from the spec: [create_document(collection_name, data)] of the
    absent [database.py].  It stores the whole document under a fresh
    store-native identifier at the end of the collection and returns that
    identifier as a string; when it raises, nothing is written. *)
Definition create_document {A} `{Document A} (collection_name : string) (data : A)
  : M string string :=
  store_call (fun d =>
    let oid := VOid (next_id d) in
    let stored := <["_id" := oid]> (to_document data) in
    ({| collections :=
          <[collection_name := documents_of d collection_name ++ [stored]]>
            (collections d);
        next_id := N.succ (next_id d);
        faults := faults d |},
     py_str oid)).

(** Modelled from the spec: [get_documents(collection_name, limit=None)] of
    the absent [database.py].  It returns the documents of the collection
    in store order, up to [limit] of them when a limit is given. *)
Definition get_documents (collection_name : string) (limit : option Z)
  : M string (list Doc) :=
  store_call (fun d => (d, apply_limit limit (documents_of d collection_name))).

(** [db[collection_name].count_documents({})]. *)
Definition count_documents (collection_name : string) : M string Z :=
  store_call (fun d => (d, Z.of_nat (length (documents_of d collection_name)))).

(** [db.list_collection_names()]. *)
Definition list_collection_names : M string (list string) :=
  store_call (fun d => (d, (map_to_list (collections d)).*1)).

(** *** GET /test *)

Definition test_database : M exn TestReply.t :=
  let response :=
    {| TestReply.backend := "✅ Running";
       TestReply.database := "❌ Not Available";
       TestReply.collections := [] |} in
  try_except
    (let* configured := db_is_not_None in
     if (configured : bool) then
       let* collections := list_collection_names in
       ret (set_collections (take 10 collections)
              (set_database "✅ Connected" response))
     else
       ret (set_database "❌ Not Configured" response))
    (fun e => ret (set_database ("❌ Error: " +:+ str_prefix 80 e) response)).

(** *** Menu endpoints *)

(** The element of the list comprehension of [get_menu]: the item built
    from one stored document [i]. *)
Definition menu_item_of (i : Doc) : outcome exn MenuItem.t :=
  MenuItem_init (dict_get i "name") (dict_get i "description")
    (dict_get_default i "price" (VFloat zero))
    (dict_get_default i "category" (VStr "Other"))
    (dict_get i "image_url")
    (dict_get_default i "is_available" (VBool true)).

Definition get_menu : M exn (list MenuItem.t) :=
  let* items := uncaught (get_documents "menuitem" None) in
  lift (traverse menu_item_of items).

Definition add_menu_item (item : MenuItem.t) : M exn string :=
  try_except
    (let* new_id := create_document "menuitem" item in
     ret new_id)
    (fun e => raise (HTTPException 500 e)).

(** The five sample dishes of [seed_menu]. *)
Definition sample (name description : string) (price : float)
    (category image_url : string) : Doc :=
  <["name" := VStr name]>
  (<["description" := VStr description]>
  (<["price" := VFloat price]>
  (<["category" := VStr category]>
  (<["image_url" := VStr image_url]>
  (<["is_available" := VBool true]> ∅))))).

Definition samples : list Doc :=
  [ sample "Margherita Pizza" "Classic pizza with tomato, mozzarella, basil"
      (decimal 1099 100) "Mains"
      "https://images.unsplash.com/photo-1548365328-9f547fb0953c";
    sample "Caesar Salad" "Romaine, parmesan, croutons, caesar dressing"
      (decimal 85 10) "Starters"
      "https://images.unsplash.com/photo-1551183053-bf91a1d81141";
    sample "Spaghetti Bolognese" "Rich beef ragu over spaghetti"
      (decimal 1325 100) "Mains"
      "https://images.unsplash.com/photo-1523986371872-9d3ba2e2a389";
    sample "Lemonade" "Freshly squeezed lemonade"
      (decimal 375 100) "Drinks"
      "https://images.unsplash.com/photo-1497534446932-c925b458314e";
    sample "Chocolate Brownie" "Warm brownie with vanilla ice cream"
      (decimal 6 1) "Desserts"
      "https://images.unsplash.com/photo-1606313564200-e75d5e30476e" ].

Definition seed_menu : M exn SeedReply.t :=
  try_except
    (let* configured := db_is_not_None in
     let* existing :=
       if (configured : bool) then count_documents "menuitem" else ret 0 in
     if existing >? 0 then
       ret {| SeedReply.inserted := 0; SeedReply.message := Some "Menu already populated" |}
     else
       let* inserted :=
         for_each samples
           (fun s inserted =>
              let* _ := create_document "menuitem" s in
              ret (inserted + 1))
           0 in
       ret {| SeedReply.inserted := inserted; SeedReply.message := None |})
    (fun e => raise (HTTPException 500 e)).

(** *** Order endpoints *)

(** [oi.unit_price * oi.quantity]: the quantity, an [int], is converted to
    a float first, which raises [OverflowError] when it is too large. *)
Definition line_amount (oi : OrderItem.t) : outcome exn float :=
  match of_int (OrderItem.quantity oi) with
  | Some q => Returns (mul (OrderItem.unit_price oi) q)
  | None => Raises OverflowError
  end.

(** [sum(oi.unit_price * oi.quantity for oi in items)], the running sum
    being [acc]: the amounts are added one after the other, from [0].
    These are the float additions of CPython's [sum] up to 3.11; from 3.12
    on it also carries a correction term for floats, with the same result
    for up to two amounts. *)
Fixpoint sum_amounts (acc : float) (items : list OrderItem.t) : outcome exn float :=
  match items with
  | [] => Returns acc
  | oi :: rest =>
      do amount <- line_amount oi;
      sum_amounts (add acc amount) rest
  end.

Definition create_order (payload : CreateOrderRequest.t) : M exn OrderReply.t :=
  let* subtotal := lift (sum_amounts zero (CreateOrderRequest.items payload)) in
  let tax := round (mul subtotal (decimal 8 100)) 2 in
  let total := round (add subtotal tax) 2 in
  let* order_doc :=
    lift (Order_init (CreateOrderRequest.customer payload)
            (CreateOrderRequest.items payload)
            (round subtotal 2) tax total "pending"
            (CreateOrderRequest.table_number payload)
            (CreateOrderRequest.pickup payload)) in
  try_except
    (let* new_id := create_document "order" order_doc in
     ret {| OrderReply.id := new_id; OrderReply.total := total |})
    (fun e => raise (HTTPException 500 e)).

(** [map_order] of [list_orders]: [doc["id"] = str(doc.get("_id"))], then
    [doc.pop("_id", None)]. *)
Definition map_order (doc : Doc) : Doc :=
  delete "_id" (<["id" := VStr (py_str (dict_get doc "_id"))]> doc).

(** [list_orders(limit: int = 50)]: [None] is a call without a limit. *)
Definition list_orders (limit : option Z) : M exn (list Doc) :=
  let limit := default 50 limit in
  try_except
    (let* docs := get_documents "order" (Some limit) in
     ret (map map_order docs))
    (fun e => raise (HTTPException 500 e)).

(** *** Request validation in front of the handlers *)

(** FastAPI builds the body model first and answers 422 without calling
    the handler when the body is invalid. *)
Definition with_body {A B} (validate : Value -> outcome exn A)
    (handler : A -> M exn B) (body : Value) : M exn B :=
  match validate body with
  | Returns a => handler a
  | Raises (ValidationError loc) => raise (RequestValidationError loc)
  | Raises e => raise e
  end.

Definition post_api_menu : Value -> M exn string :=
  with_body MenuItem_validate add_menu_item.

Definition post_api_orders : Value -> M exn OrderReply.t :=
  with_body CreateOrderRequest_validate create_order.

End Handlers.

(** ** Notions used in the statements *)

(** The [Field] constraints of [OrderItem]: every instance built by
    [OrderItem_init] satisfies them. *)
Definition valid_item (oi : OrderItem.t) : Prop :=
  leb zero (OrderItem.unit_price oi) = true /\ 1 <= OrderItem.quantity oi.

(** The total as the testable property of the spec words it, from the sum
    [S] of the amounts: [round(round(S, 2) + round(0.08 * S, 2), 2)]. *)
Definition claimed_total (S : float) : float :=
  round (add (round S 2) (round (mul (decimal 8 100) S) 2)) 2.

(** The total as [create_order] computes it: the tax is added to the sum
    before any rounding of the sum. *)
Definition computed_total (S : float) : float :=
  round (add S (round (mul S (decimal 8 100)) 2)) 2.

(** The documents of a collection of the store behind [db]. *)
Definition stored (st : Store) (collection_name : string) : list Doc :=
  match st with
  | Some d => documents_of d collection_name
  | None => []
  end.

(** All the collections of the store behind [db]. *)
Definition contents (st : Store) : gmap string (list Doc) :=
  match st with
  | Some d => collections d
  | None => ∅
  end.

(** The order document [create_order] builds from a sum [S]. *)
Definition order_of (payload : CreateOrderRequest.t) (S : float) : Order.t :=
  {| Order.customer := CreateOrderRequest.customer payload;
     Order.items := CreateOrderRequest.items payload;
     Order.subtotal := round S 2;
     Order.tax := round (mul S (decimal 8 100)) 2;
     Order.total := computed_total S;
     Order.status := "pending";
     Order.table_number := CreateOrderRequest.table_number payload;
     Order.pickup := CreateOrderRequest.pickup payload |}.

(** The database after one successful [create_document]. *)
Definition with_document (d : Database) (collection_name : string) (doc : Doc) : Database :=
  {| collections :=
       <[collection_name :=
           documents_of d collection_name ++ [<["_id" := VOid (next_id d)]> doc]]>
         (collections d);
     next_id := N.succ (next_id d);
     faults := tail (faults d) |}.

(** The exception the next call into the store raises, if it raises. *)
Definition store_failure (st : Store) : option string :=
  match st with
  | None => Some "Database not available"
  | Some d => next_fault d
  end.

(** The next [n] calls into the store go through. *)
Definition calls_succeed (n : nat) (d : Database) : Prop :=
  Forall (fun fault : option string => fault = None) (take n (faults d)).

(** The database after [create_document] has stored each of [docs] in turn. *)
Definition with_documents (d : Database) (collection_name : string) (docs : list Doc)
  : Database :=
  foldl (fun d doc => with_document d collection_name doc) d docs.

(** A JSON number below zero. *)
Definition negative_number (v : Value) : Prop :=
  match v with
  | VFloat x => ltb x zero = true
  | VInt n => n < 0
  | _ => False
  end.

(** An outcome that, when it raises, raises a [ValidationError]. *)
Definition validation_only {A} (r : outcome exn A) : Prop :=
  match r with
  | Returns _ => True
  | Raises e => exists loc, e = ValidationError loc
  end.

(** A field that is absent, [None] or a string. *)
Definition optional_text (field : option Value) : Prop :=
  match field with
  | None | Some VNone | Some (VStr _) => True
  | Some _ => False
  end.

(** A stored menu document that [MenuItem] accepts: its name is a string,
    and each other field is absent or holds a valid value. *)
Definition renderable (doc : Doc) : Prop :=
  (exists name, doc !! "name" = Some (VStr name)) /\
  optional_text (doc !! "description") /\
  match doc !! "price" with
  | None => True
  | Some (VFloat x) => leb zero x = true
  | Some (VInt n) => 0 <= n /\ is_Some (of_int n)
  | Some _ => False
  end /\
  match doc !! "category" with
  | None | Some (VStr _) => True
  | Some _ => False
  end /\
  optional_text (doc !! "image_url") /\
  match doc !! "is_available" with
  | None | Some (VBool _) => True
  | Some _ => False
  end.

(** The menu item shown for a stored document: the stored name, and the
    defaults of [get_menu] for what the document lacks. *)
Definition rendered (doc : Doc) (item : MenuItem.t) : Prop :=
  doc !! "name" = Some (VStr (MenuItem.name item)) /\
  (doc !! "price" = None -> MenuItem.price item = zero) /\
  (doc !! "category" = None -> MenuItem.category item = "Other") /\
  (doc !! "is_available" = None -> MenuItem.is_available item = true).

(** A stored document with a price and a category and no name, and a store
    in working order that holds it. *)
Definition nameless_dish : Doc :=
  <["price" := VFloat (decimal 95 10)]> (<["category" := VStr "Mains"]> ∅).

Definition nameless_db : Database :=
  {| collections := <["menuitem" := [nameless_dish]]> ∅; next_id := 1; faults := [] |}.

(** A stand-in for [str] to run the handlers on examples: an identifier
    prints as its number, a string as itself, [None] as ["None"]. *)
Definition example_str (v : Value) : string :=
  match v with
  | VOid n => pretty n
  | VStr s => s
  | VNone => "None"
  | _ => ""
  end.

(** An empty store in working order. *)
Definition empty_db : Database :=
  {| collections := ∅; next_id := 0; faults := [] |}.

Definition example_customer : Customer.t :=
  {| Customer.name := "Ann"; Customer.email := None; Customer.phone := None |}.

Definition example_item (unit_price : float) (quantity : Z) : OrderItem.t :=
  {| OrderItem.menu_item_id := "m1"; OrderItem.name := "Dish";
     OrderItem.unit_price := unit_price; OrderItem.quantity := quantity;
     OrderItem.notes := None |}.

Definition example_order (items : list OrderItem.t) : CreateOrderRequest.t :=
  {| CreateOrderRequest.customer := example_customer;
     CreateOrderRequest.items := items;
     CreateOrderRequest.table_number := None;
     CreateOrderRequest.pickup := false |}.

(** The order of the spec's example: two dishes at 10.99 and one at 3.75. *)
Definition spec_items : list OrderItem.t :=
  [example_item (decimal 1099 100) 2; example_item (decimal 375 100) 1].

(** One dish at 0.125: its rounding to two decimals is a tie. *)
Definition eighth_item : OrderItem.t := example_item (decimal 125 1000) 1.

(** A configured store whose next call fails. *)
Definition failing_db : Database :=
  {| collections := ∅; next_id := 0; faults := [Some "connection refused"] |}.

(** A store in working order that holds three orders. *)
Definition stored_order (n : N) : Doc :=
  <["_id" := VOid n]> (<["status" := VStr "pending"]> ∅).

Definition three_orders_db : Database :=
  {| collections := <["order" := [stored_order 0; stored_order 1; stored_order 2]]> ∅;
     next_id := 3; faults := [] |}.

(** A store in working order whose menu holds one document with a name only. *)
Definition soup : Doc := <["name" := VStr "Soup"]> ∅.

Definition soup_db : Database :=
  {| collections := <["menuitem" := [soup]]> ∅; next_id := 1; faults := [] |}.

(** The three amounts of a stored order document. *)
Definition amounts_of (doc : Doc) : option Value * option Value * option Value :=
  (doc !! "subtotal", doc !! "tax", doc !! "total").

(** A stand-in for the syntax check of [EmailStr]: an address has an [@]. *)
Definition example_is_email (s : string) : bool :=
  match String.index 0 "@" s with
  | Some _ => true
  | None => false
  end.

(** The records of a reply of [list_orders], none when it raised. *)
Definition records_of (r : outcome exn (list Doc)) : list Doc :=
  match r with
  | Returns docs => docs
  | Raises _ => []
  end.

(** The body [{"name": "Soup", "price": -1, "category": "Starters"}]. *)
Definition minus_one_dish : Doc :=
  <["name" := VStr "Soup"]>
  (<["price" := VInt (-1)]>
  (<["category" := VStr "Starters"]> ∅)).

(** An order body with one item of quantity 0. *)
Definition zero_quantity_item : Doc :=
  <["menu_item_id" := VStr "m1"]>
  (<["name" := VStr "Soup"]>
  (<["unit_price" := VFloat (decimal 45 10)]>
  (<["quantity" := VInt 0]> ∅))).

Definition zero_quantity_order : Doc :=
  <["customer" := VDict (<["name" := VStr "Ann"]> ∅)]>
  (<["items" := VList [VDict zero_quantity_item]]> ∅).

(** The constraints of a list of concrete items, by computation. *)
Ltac valid_items :=
  cbv [CreateOrderRequest.items example_order spec_items eighth_item];
  repeat (apply List.Forall_cons;
          [split; [vm_compute; reflexivity|vm_compute; discriminate]|]);
  apply List.Forall_nil.




(** The [Field] constraint of [MenuItem]: [price >= 0]. *)
Definition valid_menu_item (m : MenuItem.t) : Prop :=
  leb zero (MenuItem.price m) = true.

(** A dish to add to a menu. *)
Definition lemonade : MenuItem.t :=
  {| MenuItem.name := "Lemonade"; MenuItem.description := None;
     MenuItem.price := decimal 375 100; MenuItem.category := "Drinks";
     MenuItem.image_url := None; MenuItem.is_available := true |}.

(** The soup of [soup_db] as [get_menu] lists it. *)
Definition soup_item : MenuItem.t :=
  {| MenuItem.name := "Soup"; MenuItem.description := None;
     MenuItem.price := zero; MenuItem.category := "Other";
     MenuItem.image_url := None; MenuItem.is_available := true |}.

(** An empty store whose fourth call fails. *)
Definition disk_full_db : Database :=
  {| collections := ∅; next_id := 0;
     faults := [None; None; None; Some "disk full"] |}.

(** The menu item a sample of [seed_menu] stands for. *)
Definition sample_item (name description : string) (price : float)
    (category image_url : string) : MenuItem.t :=
  {| MenuItem.name := name; MenuItem.description := Some description;
     MenuItem.price := price; MenuItem.category := category;
     MenuItem.image_url := Some image_url; MenuItem.is_available := true |}.

(** An order for 2^1024 dishes at 1.0. *)
Definition huge_item : OrderItem.t := example_item (decimal 1 1) (2 ^ 1024).



(** ** Facts about floats *)

Section FloatFacts.

Lemma shr_1_m r : 0 <= shr_m r -> shr_m (shr_1 r) = shr_m r / 2.
Proof.
  destruct r as [m rb sb]; simpl; intros Hm.
  destruct m as [|p|p]; [done| |lia].
  destruct p as [p|p|]; simpl; try done.
  - rewrite Pos2Z.inj_xI. apply Z.div_unique with 1; lia.
  - rewrite Pos2Z.inj_xO. apply Z.div_unique with 0; lia.
Qed.

Lemma iter_shr_1_m p : forall r,
  0 <= shr_m r -> shr_m (iter_pos shr_1 p r) = shr_m r / 2 ^ Zpos p.
Proof.
  induction p as [p IH|p IH|]; intros r Hr; simpl iter_pos.
  - assert (H1 : 0 <= shr_m (shr_1 r)) by (rewrite shr_1_m by done; apply Z.div_pos; lia).
    assert (H2 : 0 <= shr_m (iter_pos shr_1 p (shr_1 r)))
      by (rewrite IH by done; apply Z.div_pos; lia).
    rewrite IH, IH, shr_1_m by done.
    rewrite !Z.div_div by lia. f_equal.
    change (Z.pos p~1) with (2 * Z.pos p + 1).
    replace (2 * Z.pos p + 1) with (1 + Z.pos p + Z.pos p) by lia.
    rewrite !Z.pow_add_r, Z.pow_1_r by lia. ring.
  - assert (H2 : 0 <= shr_m (iter_pos shr_1 p r))
      by (rewrite IH by done; apply Z.div_pos; lia).
    rewrite IH, IH by done.
    rewrite !Z.div_div by lia. f_equal.
    change (Z.pos p~0) with (2 * Z.pos p).
    replace (2 * Z.pos p) with (Z.pos p + Z.pos p) by lia.
    rewrite Z.pow_add_r by lia. done.
  - rewrite shr_1_m by done. done.
Qed.


Lemma shr_record_of_loc_m m l : shr_m (shr_record_of_loc m l) = m.
Proof. by destruct l as [|[]]. Qed.

Lemma digits2_pos_size p : digits2_pos p = Pos.size p.
Proof. induction p; simpl; congruence. Qed.

Lemma digits2_pos_le p : 2 ^ (Zpos (digits2_pos p) - 1) <= Zpos p.
Proof.
  rewrite digits2_pos_size.
  pose proof (Pos.size_le p) as H.
  apply Pos2Z.pos_le_pos in H. rewrite Pos2Z.inj_pow in H.
  change (Z.pos p~0) with (2 * Z.pos p) in H.
  replace (Z.pos (Pos.size p)) with (1 + (Z.pos (Pos.size p) - 1)) in H by lia.
  rewrite Z.pow_add_r, Z.pow_1_r in H by lia. lia.
Qed.

Lemma shr_fexp_nonneg m e l :
  0 <= m -> 0 <= shr_m (fst (shr_fexp prec emax m e l)).
Proof.
  intros Hm. unfold shr_fexp, shr.
  destruct (fexp prec emax (Zdigits2 m + e) - e) as [|n|n]; simpl;
    rewrite ?iter_shr_1_m; rewrite ?shr_record_of_loc_m; try done.
  apply Z.div_pos; lia.
Qed.

(** Above the smallest exponent a positive mantissa is never shifted away:
    the shift stays below its number of digits. *)
Lemma shr_fexp_pos m e l :
  0 < m -> emin prec emax <= e ->
  0 < shr_m (fst (shr_fexp prec emax m e l)) /\
  emin prec emax <= snd (shr_fexp prec emax m e l).
Proof.
  intros Hm He. unfold shr_fexp, shr.
  destruct (fexp prec emax (Zdigits2 m + e) - e) as [|n|n] eqn:Hn; simpl;
    rewrite ?shr_record_of_loc_m; try lia.
  rewrite iter_shr_1_m by (rewrite shr_record_of_loc_m; lia).
  rewrite shr_record_of_loc_m.
  destruct m as [|p|p]; try lia. simpl Zdigits2 in Hn.
  unfold fexp in Hn. split; [|lia].
  assert (Hlt : Zpos n <= Zpos (digits2_pos p) - 1) by (unfold prec in *; lia).
  apply Z.div_str_pos. split; [lia|].
  etrans; [|apply digits2_pos_le].
  apply Z.pow_le_mono_r; lia.
Qed.

Lemma round_nearest_even_ge m l : m <= round_nearest_even m l.
Proof. destruct l as [|[]]; simpl; try lia. destruct (Z.even m); lia. Qed.

Lemma binary_round_aux_signed s m e l :
  0 <= m -> signed s (binary_round_aux prec emax s m e l).
Proof.
  intros Hm. unfold binary_round_aux.
  destruct (shr_fexp prec emax m e l) as [r1 e1] eqn:H1.
  pose proof (shr_fexp_nonneg m e l Hm) as Hr1. rewrite H1 in Hr1; simpl in Hr1.
  set (m1 := round_nearest_even (shr_m r1) (loc_of_shr_record r1)).
  assert (Hm1 : 0 <= m1) by (pose proof (round_nearest_even_ge (shr_m r1) (loc_of_shr_record r1)); lia).
  destruct (shr_fexp prec emax m1 e1 loc_Exact) as [r2 e2] eqn:H2.
  pose proof (shr_fexp_nonneg m1 e1 loc_Exact Hm1) as Hr2. rewrite H2 in Hr2; simpl in Hr2.
  destruct (shr_m r2); simpl; try done; try lia.
  by destruct (_ <=? _).
Qed.

Lemma binary_round_aux_nonzero s m e l :
  0 < m -> emin prec emax <= e ->
  match binary_round_aux prec emax s m e l with
  | S754_finite s' _ _ | S754_infinity s' => s' = s
  | _ => False
  end.
Proof.
  intros Hm He. unfold binary_round_aux.
  destruct (shr_fexp prec emax m e l) as [r1 e1] eqn:H1.
  pose proof (shr_fexp_pos m e l Hm He) as [Hr1 He1]. rewrite H1 in Hr1, He1; simpl in Hr1, He1.
  set (m1 := round_nearest_even (shr_m r1) (loc_of_shr_record r1)).
  assert (Hm1 : 0 < m1) by (pose proof (round_nearest_even_ge (shr_m r1) (loc_of_shr_record r1)); lia).
  destruct (shr_fexp prec emax m1 e1 loc_Exact) as [r2 e2] eqn:H2.
  pose proof (shr_fexp_pos m1 e1 loc_Exact Hm1 He1) as [Hr2 _]. rewrite H2 in Hr2; simpl in Hr2.
  destruct (shr_m r2); simpl; try lia.
  by destruct (_ <=? _).
Qed.


Lemma signed_nonneg x : signed false x -> nonneg x = true.
Proof. destruct x; simpl; intros H; try done; by subst. Qed.

(** [0 <= x] in Python, for a float [x]. *)
Lemma leb_zero_nonneg x : leb zero x = nonneg x.
Proof. by destruct x as [[]|[]| |[] ? ?]. Qed.

Lemma binary_round_nonzero s p :
  match binary_round prec emax s p 0 with
  | S754_finite s' _ _ | S754_infinity s' => s' = s
  | _ => False
  end.
Proof.
  unfold binary_round.
  destruct (shl_align p 0 _) as [mz ez] eqn:Hal.
  apply binary_round_aux_nonzero; [done|].
  unfold shl_align in Hal.
  destruct (fexp prec emax (Z.pos (digits2_pos p) + 0) - 0) eqn:Hd;
    injection Hal as <- <-; unfold fexp, emin, prec, emax in *; lia.
Qed.

(** A quantity of at least one converts to a finite float above zero. *)
Lemma of_int_pos n q :
  1 <= n -> of_int n = Some q -> exists m e, q = S754_finite false m e.
Proof.
  intros Hn. unfold of_int, binary_normalize.
  destruct n as [|p|p]; try lia.
  pose proof (binary_round_nonzero false p) as H.
  destruct (binary_round prec emax false p 0); try done.
  intros [= <-]. subst. eauto.
Qed.

Lemma of_int_neg n q :
  n < 0 -> of_int n = Some q -> nonneg q = false.
Proof.
  intros Hn. unfold of_int, binary_normalize.
  destruct n as [|p|p]; try lia.
  pose proof (binary_round_nonzero true p) as H.
  destruct (binary_round prec emax true p 0); try done.
  intros [= <-]. by subst.
Qed.

Lemma mul_nonneg x m e :
  nonneg x = true -> nonneg (mul x (S754_finite false m e)) = true.
Proof.
  destruct x as [s|s| |s mx ex]; simpl; try done; destruct s; try done.
  intros _. apply signed_nonneg, binary_round_aux_signed. lia.
Qed.

Lemma add_nonneg x y :
  nonneg x = true -> nonneg y = true -> nonneg (add x y) = true.
Proof.
  destruct x as [sx|sx| |sx mx ex], y as [sy|sy| |sy my ey]; simpl; try done;
    try (by destruct sx, sy).
  destruct sx, sy; try done. intros _ _.
  unfold binary_normalize, cond_Zopp.
  destruct (_ + _) as [|total|total] eqn:Hsum; try lia; try done.
  apply signed_nonneg. unfold binary_round.
  destruct (shl_align total _ _). apply binary_round_aux_signed. lia.
Qed.

Lemma div_half_even_nonneg a b : 0 <= a -> 0 <= div_half_even a b.
Proof.
  intros Ha. unfold div_half_even.
  pose proof (Z.div_pos a (Zpos b) Ha ltac:(lia)) as Hq.
  unfold Z.div in Hq.
  destruct (Z.div_eucl a (Z.pos b)) as [q r].
  destruct (2 * r ?= Z.pos b); [destruct (Z.even q)| |]; lia.
Qed.

Lemma round_nonneg x ndigits : nonneg x = true -> nonneg (round x ndigits) = true.
Proof.
  destruct x as [s|s| |s m e]; simpl; try done.
  destruct s; [done|]. intros _.
  destruct (scaled_half_even ndigits m e) as [|n|n] eqn:Hn; try done.
  unfold div, SFdiv.
  destruct (SFdiv_core_binary _ _ _ _ _ _) as [[mz ez] lz] eqn:Hcore.
  apply signed_nonneg, binary_round_aux_signed.
  unfold SFdiv_core_binary in Hcore.
  match type of Hcore with
  | (let '(q, r) := Z.div_eucl ?a ?b in _) = _ =>
      pose proof (Z.div_pos a b) as Hq; unfold Z.div in Hq;
      destruct (Z.div_eucl a b) as [q r]
  end.
  injection Hcore as <- _ _. apply Hq; [|lia].
  destruct (_ - _ - _); try lia. apply Z.shiftl_nonneg. lia.
Qed.

End FloatFacts.

(** ** Facts about the store and the handlers *)

Section HandlerFacts.

Variable py_str : Value -> string.

Lemma store_call_ok {A} (op : Database -> Database * A) d :
  next_fault d = None ->
  store_call op (Some d) = (Some (op (after_call d)).1, Returns (op (after_call d)).2).
Proof. intros H. unfold store_call. rewrite H. by destruct (op _). Qed.

Lemma store_call_fault {A} (op : Database -> Database * A) d msg :
  next_fault d = Some msg ->
  store_call op (Some d) = (Some (after_call d), Raises msg).
Proof. intros H. unfold store_call. by rewrite H. Qed.

Lemma tax_rate_value : decimal 8 100 = S754_finite false 5764607523034235 (-56).
Proof. vm_compute. reflexivity. Qed.

Lemma line_amount_nonneg oi a :
  valid_item oi -> line_amount oi = Returns a -> nonneg a = true.
Proof.
  intros [Hprice Hqty]. unfold line_amount.
  destruct (of_int (OrderItem.quantity oi)) as [q|] eqn:Hq; [|done].
  destruct (of_int_pos _ _ Hqty Hq) as (m & e & ->).
  intros [= <-]. apply mul_nonneg. by rewrite <- leb_zero_nonneg.
Qed.

Lemma sum_amounts_nonneg items : forall acc S,
  Forall valid_item items -> nonneg acc = true ->
  sum_amounts acc items = Returns S -> nonneg S = true.
Proof.
  induction items as [|oi rest IH]; intros acc S Hall Hacc; simpl.
  - by intros [= <-].
  - apply Forall_cons in Hall as [Hoi Hrest].
    destruct (line_amount oi) as [a|e] eqn:Ha; simpl; [|done].
    apply IH; [done|]. apply add_nonneg; [done|].
    by eapply line_amount_nonneg.
Qed.

(** The three amounts stored with an order are never below zero. *)
Lemma order_amounts_nonneg S :
  nonneg S = true ->
  nonneg (round S 2) = true /\
  nonneg (round (mul S (decimal 8 100)) 2) = true /\
  nonneg (computed_total S) = true.
Proof.
  intros HS.
  assert (Htax : nonneg (round (mul S (decimal 8 100)) 2) = true)
    by (rewrite tax_rate_value; by apply round_nonneg, mul_nonneg).
  repeat split; [by apply round_nonneg|done|].
  by apply round_nonneg, add_nonneg.
Qed.

Lemma Order_init_ok customer items subtotal tax total status table_number pickup :
  nonneg subtotal = true -> nonneg tax = true -> nonneg total = true ->
  Order_init customer items subtotal tax total status table_number pickup =
  Returns {| Order.customer := customer; Order.items := items;
             Order.subtotal := subtotal; Order.tax := tax; Order.total := total;
             Order.status := status; Order.table_number := table_number;
             Order.pickup := pickup |}.
Proof.
  intros H1 H2 H3. unfold Order_init, ge_float.
  rewrite !leb_zero_nonneg, H1, H2, H3. done.
Qed.

Lemma create_document_ok {A} `{Document A} d collection_name (data : A) :
  next_fault d = None ->
  create_document py_str collection_name data (Some d) =
  (Some (with_document d collection_name (to_document data)),
   Returns (py_str (VOid (next_id d)))).
Proof. intros Hf. unfold create_document. by rewrite store_call_ok. Qed.

Lemma create_document_fault {A} `{Document A} d collection_name (data : A) msg :
  next_fault d = Some msg ->
  create_document py_str collection_name data (Some d) =
  (Some (after_call d), Raises msg).
Proof. intros Hf. unfold create_document. by rewrite (store_call_fault _ _ msg). Qed.

(** What [create_order] does with a valid request whose sum is [S]. *)
Lemma create_order_valid payload S st :
  Forall valid_item (CreateOrderRequest.items payload) ->
  sum_amounts zero (CreateOrderRequest.items payload) = Returns S ->
  create_order py_str payload st =
  match create_document py_str "order" (order_of payload S) st with
  | (st', Returns new_id) =>
      (st', Returns {| OrderReply.id := new_id; OrderReply.total := computed_total S |})
  | (st', Raises e) => (st', Raises (HTTPException 500 e))
  end.
Proof.
  intros Hvalid Hsum.
  assert (HS : nonneg S = true)
    by exact (sum_amounts_nonneg _ zero S Hvalid eq_refl Hsum).
  destruct (order_amounts_nonneg S HS) as (H1 & H2 & H3).
  unfold create_order, bind, lift, try_except, ret, raise. rewrite Hsum.
  fold (computed_total S).
  rewrite Order_init_ok by done. fold (order_of payload S).
  by destruct (create_document _ _ _ _) as [st' [new_id|e]].
Qed.

Lemma create_document_cases {A} `{Document A} collection_name (data : A) st :
  match create_document py_str collection_name data st with
  | (st', Returns new_id) =>
      store_failure st = None /\
      exists d, st = Some d /\
        st' = Some (with_document d collection_name (to_document data)) /\
        new_id = py_str (VOid (next_id d))
  | (st', Raises msg) => store_failure st = Some msg /\ contents st' = contents st
  end.
Proof.
  unfold create_document, store_call. destruct st as [d|]; simpl; [|done].
  destruct (next_fault d) as [msg|] eqn:Hf; simpl; [done|].
  split; [done|]. by exists d.
Qed.

Lemma sum_amounts_raises items : forall acc e,
  sum_amounts acc items = Raises e -> e = OverflowError.
Proof.
  induction items as [|oi rest IH]; intros acc e; simpl; [done|].
  unfold line_amount. destruct (of_int _); simpl; [apply IH|]. by intros [= <-].
Qed.

(** Either the request fails before the store is called, on the conversion
    of a quantity or on a constraint of [Order], or an order with status
    ["pending"] is handed to [create_document]. *)
Lemma create_order_cases payload st :
  (exists e, create_order py_str payload st = (st, Raises e) /\
     (e = OverflowError \/ exists loc, e = ValidationError loc)) \/
  (exists o, Order.status o = "pending" /\
     create_order py_str payload st =
     match create_document py_str "order" o st with
     | (st', Returns new_id) =>
         (st', Returns {| OrderReply.id := new_id; OrderReply.total := Order.total o |})
     | (st', Raises e) => (st', Raises (HTTPException 500 e))
     end).
Proof.
  unfold create_order, bind, lift, try_except, ret, raise.
  destruct (sum_amounts zero _) as [S|e] eqn:Hsum.
  - unfold Order_init, ge_float.
    destruct (leb zero (round S 2)); simpl; [|left; eauto].
    destruct (leb zero (round (mul S _) 2)); simpl; [|left; eauto].
    destruct (leb zero (round (add S _) 2)); simpl; [|left; eauto].
    right. exists (order_of payload S). split; [done|].
    fold (computed_total S). fold (order_of payload S).
    by destruct (create_document _ _ _ _) as [? [|]].
  - left. exists e. split; [done|]. left. by eapply sum_amounts_raises.
Qed.

Lemma documents_of_with_document d collection_name doc :
  documents_of (with_document d collection_name doc) collection_name =
  documents_of d collection_name ++ [<["_id" := VOid (next_id d)]> doc].
Proof. unfold documents_of at 1, with_document; simpl. by rewrite lookup_insert_eq. Qed.

Lemma Order_document_status v o :
  (<["_id" := v]> (to_document o) : Doc) !! "status" = Some (VStr (Order.status o)).
Proof. vm_compute. reflexivity. Qed.

End HandlerFacts.

(** ** Orders *)

Lemma stored_contents st collection_name :
  stored st collection_name = default [] (contents st !! collection_name).
Proof. by destruct st. Qed.

Lemma Order_document_amounts v o :
  (<["_id" := v]> (to_document o) : Doc) !! "subtotal" = Some (VFloat (Order.subtotal o)) /\
  (<["_id" := v]> (to_document o) : Doc) !! "tax" = Some (VFloat (Order.tax o)) /\
  (<["_id" := v]> (to_document o) : Doc) !! "total" = Some (VFloat (Order.total o)).
Proof. repeat split; vm_compute; reflexivity. Qed.

(** C1, as amended.  For a request whose items satisfy [quantity >= 1] and
    [unit_price >= 0], whose quantities convert to floats so that the sum [S]
    of [unit_price * quantity] exists, and a store that takes the write,
    [create_order] returns the total [round(S + round(S * 0.08, 2), 2)]:
    the tax is added to the sum as it is, not to the sum rounded to two
    decimals. *)
Theorem create_order_total py_str payload d S :
  Forall valid_item (CreateOrderRequest.items payload) ->
  sum_amounts zero (CreateOrderRequest.items payload) = Returns S ->
  next_fault d = None ->
  exists st' new_id,
    create_order py_str payload (Some d) =
    (st', Returns {| OrderReply.id := new_id;
                     OrderReply.total := round (add S (round (mul S (decimal 8 100)) 2)) 2 |}).
Proof.
  intros Hvalid Hsum Hok.
  rewrite (create_order_valid py_str payload S) by done.
  rewrite create_document_ok by done. eauto.
Qed.

(** C2, as amended.  The order document that [create_order] stores holds
    [subtotal = round(S, 2)], [tax = round(S * 0.08, 2)] and
    [total = round(S + tax, 2)], where [S] is the sum of
    [unit_price * quantity] before rounding. *)
Theorem create_order_stored_amounts py_str payload d S :
  Forall valid_item (CreateOrderRequest.items payload) ->
  sum_amounts zero (CreateOrderRequest.items payload) = Returns S ->
  next_fault d = None ->
  exists doc,
    stored (create_order py_str payload (Some d)).1 "order" =
      stored (Some d) "order" ++ [doc] /\
    doc !! "subtotal" = Some (VFloat (round S 2)) /\
    doc !! "tax" = Some (VFloat (round (mul S (decimal 8 100)) 2)) /\
    doc !! "total" =
      Some (VFloat (round (add S (round (mul S (decimal 8 100)) 2)) 2)).
Proof.
  intros Hvalid Hsum Hok.
  rewrite (create_order_valid py_str payload S) by done.
  rewrite create_document_ok by done. simpl.
  eexists. split; [apply documents_of_with_document|].
  apply Order_document_amounts.
Qed.

(** C3.  Whatever the request and the store, every document that
    [create_order] adds to the order collection has status ["pending"]; a
    request that returns has added exactly one, and one that raises none. *)
Theorem create_order_status_pending py_str payload st :
  exists added,
    stored (create_order py_str payload st).1 "order" = stored st "order" ++ added /\
    Forall (fun doc : Doc => doc !! "status" = Some (VStr "pending")) added /\
    match (create_order py_str payload st).2 with
    | Returns _ => length added = 1%nat
    | Raises _ => added = []
    end.
Proof.
  destruct (create_order_cases py_str payload st) as [(e & -> & _)|(o & Hst & ->)].
  - exists []. simpl. by rewrite app_nil_r.
  - pose proof (create_document_cases py_str "order" o st) as Hdoc.
    destruct (create_document py_str "order" o st) as [st' [new_id|msg]]; simpl.
    + destruct Hdoc as (_ & d & -> & -> & _).
      eexists [_]. split; [apply documents_of_with_document|]. split; [|done].
      constructor; [|done]. by rewrite Order_document_status, Hst.
    + destruct Hdoc as [_ Hsame]. exists []. rewrite app_nil_r.
      by rewrite !stored_contents, Hsame.
Qed.

(** C8.  [create_order] writes the whole order or nothing.  When it returns,
    the store took the write: exactly the document of one order, under a
    fresh identifier, was added to the order collection, and the reply
    carries that identifier and the order's total.  When it raises, no
    collection has changed, the client gets no identifier and the answer is
    a server error (500).  And when the store fails on the write of a valid
    request with the message [msg], what is raised is
    [HTTPException(status_code=500, detail=msg)]. *)
Theorem create_order_all_or_nothing py_str payload st :
  match create_order py_str payload st with
  | (st', Returns reply) =>
      store_failure st = None /\
      exists (o : Order.t) (oid : Value),
        contents st' =
          <["order" := stored st "order" ++ [<["_id" := oid]> (to_document o)]]>
            (contents st) /\
        OrderReply.id reply = py_str oid /\
        OrderReply.total reply = Order.total o
  | (st', Raises e) =>
      contents st' = contents st /\
      http_status 201 (Raises e : outcome exn OrderReply.t) = 500
  end /\
  forall S msg,
    Forall valid_item (CreateOrderRequest.items payload) ->
    sum_amounts zero (CreateOrderRequest.items payload) = Returns S ->
    store_failure st = Some msg ->
    (create_order py_str payload st).2 = Raises (HTTPException 500 msg).
Proof.
  split.
  - destruct (create_order_cases py_str payload st) as [(e & -> & He)|(o & Hst & ->)].
    + split; [done|]. by destruct He as [->|[loc ->]].
    + pose proof (create_document_cases py_str "order" o st) as Hdoc.
      destruct (create_document py_str "order" o st) as [st' [new_id|msg]].
      * destruct Hdoc as (Hok & d & -> & -> & ->). split; [done|].
        by exists o, (VOid (next_id d)).
      * by destruct Hdoc as [Hfail Hsame].
  - intros S msg Hvalid Hsum Hfail.
    rewrite (create_order_valid py_str payload S) by done.
    pose proof (create_document_cases py_str "order" (order_of payload S) st) as Hdoc.
    destruct (create_document py_str "order" _ st) as [st' [new_id|msg']]; simpl.
    + destruct Hdoc as [Hok _]. congruence.
    + destruct Hdoc as [Hmsg _]. congruence.
Qed.

(** ** The menu *)

Lemma calls_succeed_next n d :
  calls_succeed (S n) d -> next_fault d = None /\ calls_succeed n (after_call d).
Proof.
  unfold calls_succeed, next_fault, after_call; simpl.
  destruct (faults d) as [|fault later]; simpl.
  - intros _. split; [done|]. by rewrite take_nil.
  - by intros [-> Hlater]%Forall_cons.
Qed.

Lemma calls_succeed_with_document n d collection_name doc :
  calls_succeed (S n) d -> calls_succeed n (with_document d collection_name doc).
Proof. intros H. by apply calls_succeed_next in H as [_ H]. Qed.

(** The loop of [seed_menu] over any list of documents. *)
Lemma seed_loop py_str docs : forall d acc,
  calls_succeed (length docs) d ->
  for_each docs
    (fun s inserted =>
       let* _ := create_document py_str "menuitem" s in
       ret (inserted + 1))
    acc (Some d) =
  (Some (with_documents d "menuitem" docs), Returns (acc + Z.of_nat (length docs))).
Proof.
  induction docs as [|s rest IH]; intros d acc Hok; simpl.
  - unfold ret. do 2 f_equal. lia.
  - destruct (calls_succeed_next _ _ Hok) as [Hnext _].
    unfold bind at 1. unfold bind at 1. rewrite create_document_ok by done.
    unfold ret at 1. rewrite IH by (by eapply calls_succeed_with_document).
    do 2 f_equal. lia.
Qed.

Lemma with_documents_next_id d collection_name docs :
  next_id (with_documents d collection_name docs) = (next_id d + N.of_nat (length docs))%N.
Proof.
  revert d. induction docs as [|doc rest IH]; intros d; simpl; [lia|].
  rewrite IH. simpl. lia.
Qed.

Lemma documents_of_with_documents d collection_name docs :
  documents_of (with_documents d collection_name docs) collection_name =
  documents_of d collection_name ++
  imap (fun i doc => <["_id" := VOid (next_id d + N.of_nat i)]> doc) docs.
Proof.
  revert d. induction docs as [|doc rest IH]; intros d; simpl.
  - by rewrite app_nil_r.
  - rewrite IH, documents_of_with_document, <- app_assoc. simpl.
    rewrite N.add_0_r. do 2 f_equal.
    apply imap_ext. intros i x _. simpl.
    replace (N.succ (next_id d) + N.of_nat i)%N with (next_id d + N.of_nat (S i))%N by lia.
    done.
Qed.

Lemma documents_of_with_documents_other d collection_name other docs :
  other <> collection_name ->
  documents_of (with_documents d collection_name docs) other = documents_of d other.
Proof.
  intros Hne. revert d. induction docs as [|doc rest IH]; intros d; simpl; [done|].
  rewrite IH. unfold documents_of, with_document; simpl.
  by rewrite lookup_insert_ne.
Qed.

Lemma bind_returns {E A B} (m : M E A) (k : A -> M E B) st st' a :
  m st = (st', Returns a) -> bind m k st = k a st'.
Proof. intros H. unfold bind. by rewrite H. Qed.

Lemma bind_raises {E A B} (m : M E A) (k : A -> M E B) st st' e :
  m st = (st', Raises e) -> bind m k st = (st', Raises e).
Proof. intros H. unfold bind. by rewrite H. Qed.

Lemma try_except_returns {E E' A} (body : M E A) (handler : E -> M E' A) st st' a :
  body st = (st', Returns a) -> try_except body handler st = (st', Returns a).
Proof. intros H. unfold try_except. by rewrite H. Qed.

Lemma try_except_raises {E E' A} (body : M E A) (handler : E -> M E' A) st st' e :
  body st = (st', Raises e) -> try_except body handler st = handler e st'.
Proof. intros H. unfold try_except. by rewrite H. Qed.

(** What [seed_menu] does on a store whose next six calls go through. *)
Lemma seed_menu_run py_str d :
  calls_succeed 6 d ->
  seed_menu py_str (Some d) =
  match documents_of d "menuitem" with
  | [] =>
      (Some (with_documents (after_call d) "menuitem" samples),
       Returns {| SeedReply.inserted := 5; SeedReply.message := None |})
  | _ :: _ =>
      (Some (after_call d),
       Returns {| SeedReply.inserted := 0; SeedReply.message := Some "Menu already populated" |})
  end.
Proof.
  intros Hok. destruct (calls_succeed_next _ _ Hok) as [Hnext Hrest].
  assert (Hcount : count_documents "menuitem" (Some d) =
                   (Some (after_call d),
                    Returns (Z.of_nat (length (documents_of d "menuitem")))))
    by (unfold count_documents; by rewrite store_call_ok).
  unfold seed_menu.
  destruct (documents_of d "menuitem") as [|doc docs] eqn:Hdocs;
    apply try_except_returns;
    (erewrite bind_returns by reflexivity);
    change (bool_decide (is_Some (Some d))) with true; cbv iota;
    (erewrite bind_returns by exact Hcount); rewrite ?Hdocs.
  - change (Z.of_nat (length (@nil Doc)) >? 0) with false. cbv iota.
    erewrite bind_returns by (by apply seed_loop). done.
  - replace (Z.of_nat (length (doc :: docs)) >? 0) with true; [done|].
    symmetry. apply Z.gtb_lt. simpl length. lia.
Qed.

(** C4.  On a configured store whose next six calls go through (the count
    and five writes): when the menuitem collection is empty, [seed_menu]
    returns [inserted = 5] and the collection then holds exactly the five
    samples, each under a fresh identifier, while every other collection is
    as before; when the collection holds a record, [seed_menu] returns
    [inserted = 0] with its message and no collection has changed. *)
Theorem seed_menu_inserts_five_or_nothing py_str d :
  calls_succeed 6 d ->
  exists d',
    (seed_menu py_str (Some d)).1 = Some d' /\
    match documents_of d "menuitem" with
    | [] =>
        (seed_menu py_str (Some d)).2 = Returns {| SeedReply.inserted := 5; SeedReply.message := None |} /\
        documents_of d' "menuitem" =
          imap (fun i doc => <["_id" := VOid (next_id d + N.of_nat i)]> doc) samples /\
        length (documents_of d' "menuitem") = 5%nat /\
        forall other, other <> "menuitem" -> documents_of d' other = documents_of d other
    | _ :: _ =>
        (seed_menu py_str (Some d)).2 =
          Returns {| SeedReply.inserted := 0; SeedReply.message := Some "Menu already populated" |} /\
        collections d' = collections d
    end.
Proof.
  intros Hok. rewrite (seed_menu_run py_str d Hok).
  destruct (documents_of d "menuitem") as [|doc docs] eqn:Hdocs.
  - exists (with_documents (after_call d) "menuitem" samples).
    assert (Hstored :
      documents_of (with_documents (after_call d) "menuitem" samples) "menuitem" =
      imap (fun i doc => <["_id" := VOid (next_id d + N.of_nat i)]> doc) samples).
    { rewrite documents_of_with_documents.
      change (documents_of (after_call d) "menuitem") with (documents_of d "menuitem").
      by rewrite Hdocs. }
    split; [done|]. split; [done|]. split; [done|].
    split; [by rewrite Hstored|].
    intros other Hne. by rewrite documents_of_with_documents_other.
  - by exists (after_call d).
Qed.

(** ** Listing orders *)

(** The orders [list_orders] returns are the first [limit] stored ones, each
    put through [map_order]. *)
Lemma list_orders_returns py_str limit st st' docs :
  list_orders py_str limit st = (st', Returns docs) ->
  exists d,
    st = Some d /\
    docs = map (map_order py_str)
             (take (Z.to_nat (default 50 limit)) (documents_of d "order")).
Proof.
  unfold list_orders, try_except, bind, get_documents, store_call, ret, raise.
  destruct st as [d|]; [|done].
  destruct (next_fault d); [done|]. simpl.
  intros [= _ <-]. by exists d.
Qed.

Lemma map_order_id py_str doc :
  map_order py_str doc !! "id" = Some (VStr (py_str (dict_get doc "_id"))).
Proof.
  unfold map_order. rewrite lookup_delete_ne by done. apply lookup_insert_eq.
Qed.

Lemma map_order_no_raw_id py_str doc : map_order py_str doc !! "_id" = None.
Proof. unfold map_order. apply lookup_delete_eq. Qed.

(** C5.  [list_orders] returns at most [limit] records, and at most 50 when
    the caller gives no limit (a limit below zero yields no record at all). *)
Theorem list_orders_at_most_limit py_str limit st st' docs :
  list_orders py_str limit st = (st', Returns docs) ->
  (length docs <= Z.to_nat (default 50%Z limit))%nat.
Proof.
  intros (d & _ & ->)%list_orders_returns.
  rewrite length_map, length_take. lia.
Qed.

(** C6.  Every record [list_orders] returns has a field [id] that holds a
    string, the text of the stored identifier, and has no field [_id]. *)
Theorem list_orders_string_id py_str limit st st' docs :
  list_orders py_str limit st = (st', Returns docs) ->
  Forall (fun doc : Doc =>
            (exists s, doc !! "id" = Some (VStr s)) /\ doc !! "_id" = None)
         docs.
Proof.
  intros (d & _ & ->)%list_orders_returns.
  apply Forall_forall. intros doc (orig & -> & _)%list_elem_of_fmap.
  split; [|apply map_order_no_raw_id].
  eexists. apply map_order_id.
Qed.

(** ** The diagnostic probe *)

(** C9.  [test_database] never raises: whatever the store (not configured,
    working, or failing on the call), it returns a body, answered with
    status 200, whose [backend] says running, whose [collections] holds at
    most 10 names, and whose [database] says connected, not configured, or
    gives the first 80 characters of the store's error. *)
Theorem test_database_never_raises st :
  exists st' reply,
    test_database st = (st', Returns reply) /\
    http_status 200 (test_database st).2 = 200 /\
    TestReply.backend reply = "✅ Running" /\
    (length (TestReply.collections reply) <= 10)%nat /\
    match st with
    | None => TestReply.database reply = "❌ Not Configured" /\ TestReply.collections reply = []
    | Some d =>
        match next_fault d with
        | Some msg =>
            TestReply.database reply = "❌ Error: " +:+ str_prefix 80 msg /\
            TestReply.collections reply = []
        | None => TestReply.database reply = "✅ Connected"
        end
    end.
Proof.
  unfold test_database, try_except, bind, db_is_not_None, list_collection_names,
    store_call, ret.
  destruct st as [d|]; simpl.
  - destruct (next_fault d) as [msg|]; simpl.
    + eexists _, _. split; [done|]. repeat split; simpl; lia.
    + eexists _, _. split; [done|]. repeat split; simpl.
      rewrite length_take. lia.
  - eexists _, _. split; [done|]. repeat split; simpl; lia.
Qed.

(** ** Validation of the request bodies *)

Lemma ltb_zero_not_ge x : ltb x zero = true -> leb zero x = false.
Proof. by destruct x as [[]|[]| |[] ? ?]. Qed.

Lemma price_rejected loc v :
  negative_number v ->
  (do x <- as_float loc v; ge_float loc zero x) = Raises (ValidationError loc).
Proof.
  destruct v as [| | n | x | | | |]; simpl; try done.
  - intros Hn. destruct (of_int n) as [q|] eqn:Hq; simpl; [|done].
    unfold ge_float. by rewrite leb_zero_nonneg, (of_int_neg n q).
  - intros Hx. unfold ge_float. by rewrite ltb_zero_not_ge.
Qed.

Lemma MenuItem_init_negative_price name description price category image_url is_available :
  negative_number price ->
  exists loc,
    MenuItem_init name description price category image_url is_available =
    Raises (ValidationError loc).
Proof.
  intros Hneg. unfold MenuItem_init.
  destruct name; simpl; eauto.
  destruct description; simpl; eauto.
  all: pose proof (price_rejected "price" price Hneg) as Hp.
  all: destruct (as_float "price" price) as [x|e]; simpl in *;
    [rewrite Hp; simpl; eauto|injection Hp as ->; eauto].
Qed.

Lemma as_float_validation_only loc v : validation_only (as_float loc v).
Proof. destruct v; simpl; eauto. destruct (of_int _); simpl; eauto. Qed.

Lemma OrderItem_init_validation_only menu_item_id name unit_price quantity notes :
  validation_only (OrderItem_init menu_item_id name unit_price quantity notes).
Proof.
  unfold OrderItem_init.
  destruct menu_item_id; simpl; eauto.
  destruct name; simpl; eauto.
  pose proof (as_float_validation_only "unit_price" unit_price) as Hf.
  destruct (as_float "unit_price" unit_price) as [x|e]; simpl; [|done].
  unfold ge_float. destruct (leb zero x); simpl; eauto.
  destruct quantity; simpl; eauto.
  unfold ge_int. destruct (1 <=? _); simpl; eauto.
  destruct notes; simpl; eauto.
Qed.

Lemma OrderItem_init_low_quantity menu_item_id name unit_price q notes :
  q < 1 ->
  exists loc,
    OrderItem_init menu_item_id name unit_price (VInt q) notes =
    Raises (ValidationError loc).
Proof.
  intros Hq.
  pose proof (OrderItem_init_validation_only menu_item_id name unit_price (VInt q) notes) as Honly.
  destruct (OrderItem_init _ _ _ _ _) as [oi|e] eqn:Hinit; [|destruct Honly as [loc ->]; eauto].
  exfalso. revert Hinit. unfold OrderItem_init.
  destruct menu_item_id; simpl; try done.
  destruct name; simpl; try done.
  destruct (as_float "unit_price" unit_price) as [x|e]; simpl; [|done].
  unfold ge_float. destruct (leb zero x); simpl; [|done].
  unfold ge_int. destruct (Z.leb_spec 1 q); [lia|done].
Qed.

Lemma OrderItem_validate_validation_only v : validation_only (OrderItem_validate v).
Proof.
  destruct v; simpl; eauto. apply OrderItem_init_validation_only.
Qed.

Lemma traverse_validation_only {A B} (f : A -> outcome exn B) l :
  (forall x, validation_only (f x)) -> validation_only (traverse f l).
Proof.
  intros Hf. induction l as [|x rest IH]; simpl; [done|].
  specialize (Hf x). destruct (f x); simpl; [|done].
  destruct (traverse f rest); simpl; done.
Qed.

(** One invalid element makes the whole list invalid. *)
Lemma traverse_rejects {A B} (f : A -> outcome exn B) l x :
  (forall y, validation_only (f y)) ->
  x ∈ l -> (exists loc, f x = Raises (ValidationError loc)) ->
  exists loc, traverse f l = Raises (ValidationError loc).
Proof.
  intros Hf Hin [loc Hx].
  pose proof (traverse_validation_only f l Hf) as Honly.
  destruct (traverse f l) as [bs|e] eqn:Hrun; [|destruct Honly as [loc' ->]; eauto].
  exfalso. clear Honly. revert bs Hrun.
  induction Hin as [x rest|x y rest Hin IH]; intros bs; simpl.
  - by rewrite Hx.
  - destruct (f y); simpl; [|done].
    destruct (traverse f rest) as [bs'|]; simpl; [|done].
    intros _. by eapply IH.
Qed.

Lemma Customer_validate_validation_only is_email v :
  validation_only (Customer_validate is_email v).
Proof.
  destruct v as [| | | | | | |d]; simpl; eauto.
  destruct (dict_get d "name"); simpl; eauto.
  unfold as_optional_email.
  destruct (dict_get d "email") as [| | | |addr| | |]; simpl; eauto.
  all: try destruct (is_email addr); simpl; eauto.
  all: destruct (dict_get d "phone"); simpl; eauto.
Qed.

Lemma with_body_rejects {A B} (validate : Value -> outcome exn A)
    (handler : A -> M exn B) body loc st :
  validate body = Raises (ValidationError loc) ->
  with_body validate handler body st = (st, Raises (RequestValidationError loc)).
Proof. intros H. unfold with_body. by rewrite H. Qed.

(** C7.  A menu item whose price is a number below zero, and an order with
    an item whose quantity is below one, are turned away by the validation
    of the body: the handler is not called and the store is exactly as it
    was, no call to it having been made. *)
Theorem invalid_bodies_rejected py_str is_email st :
  (forall d,
     negative_number (dict_get d "price") ->
     exists loc,
       post_api_menu py_str (VDict d) st = (st, Raises (RequestValidationError loc))) /\
  (forall d items i q,
     d !! "items" = Some (VList items) ->
     VDict i ∈ items ->
     i !! "quantity" = Some (VInt q) ->
     q < 1 ->
     exists loc,
       post_api_orders py_str is_email (VDict d) st =
       (st, Raises (RequestValidationError loc))).
Proof.
  split.
  - intros d Hneg.
    destruct (MenuItem_init_negative_price (dict_get d "name") (dict_get d "description")
                (dict_get d "price") (dict_get d "category") (dict_get d "image_url")
                (dict_get_default d "is_available" (VBool true)) Hneg) as [loc Hloc].
    exists loc. by apply with_body_rejects.
  - intros d items i q Hitems Hin Hqty Hq.
    assert (Hbad : exists loc, CreateOrderRequest_validate is_email (VDict d) =
                               Raises (ValidationError loc)).
    { unfold CreateOrderRequest_validate.
      pose proof (Customer_validate_validation_only is_email (dict_get d "customer")) as Hc.
      destruct (Customer_validate is_email _) as [c|e]; simpl;
        [|destruct Hc as [loc ->]; eauto].
      unfold dict_get at 1. rewrite Hitems. simpl.
      destruct (traverse_rejects OrderItem_validate items (VDict i)
                  OrderItem_validate_validation_only Hin) as [loc ->]; [|simpl; eauto].
      simpl. unfold dict_get at 4. rewrite Hqty. simpl.
      by apply OrderItem_init_low_quantity. }
    destruct Hbad as [loc Hloc]. exists loc. by apply with_body_rejects.
Qed.

(** ** Listing the menu *)

Lemma of_int_nonneg n q : 0 <= n -> of_int n = Some q -> nonneg q = true.
Proof.
  intros Hn Hq. destruct (Z.eq_dec n 0) as [->|Hne].
  - by injection Hq as <-.
  - destruct (of_int_pos n q) as (m & e & ->); [lia|done|done].
Qed.

Lemma menu_item_of_renderable doc :
  renderable doc -> exists item, menu_item_of doc = Returns item /\ rendered doc item.
Proof.
  intros ([name Hname] & Hdesc & Hprice & Hcat & Himg & Havail).
  unfold menu_item_of, MenuItem_init, rendered, dict_get, dict_get_default, optional_text in *.
  rewrite Hname. simpl.
  destruct (doc !! "description") as [[| | | |description| | |]|]; try done; simpl.
  all: destruct (doc !! "price") as [[| |n|x| | | |]|]; try done; simpl.
  all: try match type of Hprice with
           | _ /\ _ =>
               destruct Hprice as [Hn [q Hq]]; rewrite Hq; simpl;
               pose proof (of_int_nonneg n q Hn Hq) as Hprice;
               rewrite <- leb_zero_nonneg in Hprice
           end.
  all: unfold ge_float; try rewrite Hprice; simpl.
  all: destruct (doc !! "category") as [[| | | |category| | |]|]; try done; simpl.
  all: destruct (doc !! "image_url") as [[| | | |image_url| | |]|]; try done; simpl.
  all: destruct (doc !! "is_available") as [[|available| | | | | |]|]; try done; simpl.
  all: eexists; split; [reflexivity|]; simpl; repeat split; done.
Qed.

Lemma traverse_renderable docs :
  Forall renderable docs ->
  exists items, traverse menu_item_of docs = Returns items /\ Forall2 rendered docs items.
Proof.
  induction 1 as [|doc rest Hdoc _ (items & Hitems & Hall)]; simpl.
  - by exists [].
  - destruct (menu_item_of_renderable doc Hdoc) as (item & -> & Hitem). simpl.
    rewrite Hitems. simpl. exists (item :: items). split; [done|]. by constructor.
Qed.

Lemma get_menu_run st :
  get_menu st =
  match get_documents "menuitem" None st with
  | (st', Returns items) => (st', traverse menu_item_of items)
  | (st', Raises e) => (st', Raises (StoreError e))
  end.
Proof.
  unfold get_menu, uncaught, try_except, bind, lift, raise.
  by destruct (get_documents "menuitem" None st) as [st' [items|e]].
Qed.

(** C10, as amended.  On a store that answers the read, when every stored
    menu document has a string as its name and valid values in the fields it
    has, [get_menu] returns one item per stored document, in store order,
    each with the stored name; a missing price is shown as 0.0, a missing
    category as ["Other"] and a missing [is_available] as true. *)
Theorem get_menu_fills_defaults d :
  next_fault d = None ->
  Forall renderable (documents_of d "menuitem") ->
  exists items,
    get_menu (Some d) = (Some (after_call d), Returns items) /\
    Forall2 rendered (documents_of d "menuitem") items.
Proof.
  intros Hok Hall. rewrite get_menu_run.
  unfold get_documents. rewrite store_call_ok by done. simpl.
  destruct (traverse_renderable _ Hall) as (items & Hitems & Hrendered).
  exists items. split; [|done].
  change (documents_of (after_call d) "menuitem") with (documents_of d "menuitem").
  by rewrite Hitems.
Qed.

(** ** The statements at concrete inputs *)

(** The spec's example: 2 x 10.99 + 1 x 3.75 sums to 25.73 and the order
    costs 27.79. *)
Lemma create_order_total_witness :
  exists st' new_id,
    create_order example_str (example_order spec_items) (Some empty_db) =
    (st', Returns {| OrderReply.id := new_id;
                     OrderReply.total := round (add (decimal 2573 100)
                                (round (mul (decimal 2573 100) (decimal 8 100)) 2)) 2 |}).
Proof.
  apply (create_order_total example_str (example_order spec_items) empty_db
           (decimal 2573 100)).
  - valid_items.
  - vm_compute. reflexivity.
  - reflexivity.
Defined.

(** One dish at 0.125.  The sum is 0.125 and the tax 0.01; [create_order]
    rounds 0.135 and returns 0.14, while the formula of the claim rounds the
    sum to 0.12 first and gives 0.13. *)
Lemma create_order_total_counterexample :
  Forall valid_item [eighth_item] /\
  sum_amounts zero [eighth_item] = Returns (decimal 125 1000) /\
  (create_order example_str (example_order [eighth_item]) (Some empty_db)).2 =
    Returns {| OrderReply.id := "0"; OrderReply.total := decimal 14 100 |} /\
  claimed_total (decimal 125 1000) = decimal 13 100 /\
  decimal 14 100 <> decimal 13 100.
Proof.
  split; [valid_items|].
  repeat split; try (vm_compute; reflexivity).
  vm_compute. discriminate.
Qed.

(** The spec's example as stored: subtotal 25.73, tax 2.06, total 27.79. *)
Lemma create_order_stored_amounts_witness :
  exists doc,
    stored (create_order example_str (example_order spec_items) (Some empty_db)).1 "order" =
      stored (Some empty_db) "order" ++ [doc] /\
    doc !! "subtotal" = Some (VFloat (round (decimal 2573 100) 2)) /\
    doc !! "tax" = Some (VFloat (round (mul (decimal 2573 100) (decimal 8 100)) 2)) /\
    doc !! "total" =
      Some (VFloat (round (add (decimal 2573 100)
                     (round (mul (decimal 2573 100) (decimal 8 100)) 2)) 2)).
Proof.
  apply (create_order_stored_amounts example_str (example_order spec_items) empty_db
           (decimal 2573 100)).
  - valid_items.
  - vm_compute. reflexivity.
  - reflexivity.
Defined.

(** One dish at 0.125 is stored with subtotal 0.12, tax 0.01 and total 0.14:
    the total is not the sum of the two rounded amounts, 0.13. *)
Lemma stored_total_counterexample :
  amounts_of <$>
    stored (create_order example_str (example_order [eighth_item]) (Some empty_db)).1
      "order" =
  [(Some (VFloat (decimal 12 100)), Some (VFloat (decimal 1 100)),
    Some (VFloat (decimal 14 100)))] /\
  decimal 14 100 <> add (decimal 12 100) (decimal 1 100) /\
  decimal 14 100 <> round (add (decimal 12 100) (decimal 1 100)) 2.
Proof.
  split; [vm_compute; reflexivity|].
  split; vm_compute; discriminate.
Qed.


(** Seeding the empty store. *)
Lemma seed_menu_witness :
  exists d',
    (seed_menu example_str (Some empty_db)).1 = Some d' /\
    match documents_of empty_db "menuitem" with
    | [] =>
        (seed_menu example_str (Some empty_db)).2 =
          Returns {| SeedReply.inserted := 5; SeedReply.message := None |} /\
        documents_of d' "menuitem" =
          imap (fun i doc => <["_id" := VOid (next_id empty_db + N.of_nat i)]> doc)
            samples /\
        length (documents_of d' "menuitem") = 5%nat /\
        forall other, other <> "menuitem" ->
          documents_of d' other = documents_of empty_db other
    | _ :: _ =>
        (seed_menu example_str (Some empty_db)).2 =
          Returns {| SeedReply.inserted := 0; SeedReply.message := Some "Menu already populated" |} /\
        collections d' = collections empty_db
    end.
Proof.
  apply (seed_menu_inserts_five_or_nothing example_str empty_db).
  unfold calls_succeed. simpl. apply List.Forall_nil.
Defined.

(** Two of three stored orders are returned for [limit=2]. *)
Lemma list_orders_at_most_limit_witness :
  (length (records_of (list_orders example_str (Some 2%Z) (Some three_orders_db)).2)
   <= 2)%nat.
Proof.
  apply (list_orders_at_most_limit example_str (Some 2) (Some three_orders_db)
           (list_orders example_str (Some 2) (Some three_orders_db)).1).
  vm_compute. reflexivity.
Defined.

(** The three stored orders, listed without a limit. *)
Lemma list_orders_string_id_witness :
  Forall (fun doc : Doc =>
            (exists s, doc !! "id" = Some (VStr s)) /\ doc !! "_id" = None)
         (records_of (list_orders example_str None (Some three_orders_db)).2).
Proof.
  apply (list_orders_string_id example_str None (Some three_orders_db)
           (list_orders example_str None (Some three_orders_db)).1).
  vm_compute. reflexivity.
Defined.

(** A dish at -1 and an order for 0 dishes, against the empty store. *)
Lemma invalid_bodies_rejected_witness :
  (exists loc,
     post_api_menu example_str (VDict minus_one_dish) (Some empty_db) =
     (Some empty_db, Raises (RequestValidationError loc))) /\
  (exists loc,
     post_api_orders example_str example_is_email (VDict zero_quantity_order)
       (Some empty_db) =
     (Some empty_db, Raises (RequestValidationError loc))).
Proof.
  split.
  - apply (proj1 (invalid_bodies_rejected example_str example_is_email (Some empty_db))).
    vm_compute. reflexivity.
  - apply (proj2 (invalid_bodies_rejected example_str example_is_email (Some empty_db))
             zero_quantity_order [VDict zero_quantity_item] zero_quantity_item 0).
    + vm_compute. reflexivity.
    + apply list_elem_of_here.
    + vm_compute. reflexivity.
    + reflexivity.
Defined.

(** The spec's example against a store that refuses the write. *)
Lemma create_order_all_or_nothing_witness :
  (create_order example_str (example_order spec_items) (Some failing_db)).2 =
  Raises (HTTPException 500 "connection refused").
Proof.
  apply (proj2 (create_order_all_or_nothing example_str (example_order spec_items)
                  (Some failing_db)) (decimal 2573 100) "connection refused").
  - valid_items.
  - vm_compute. reflexivity.
  - reflexivity.
Defined.

(** A stored dish with a name only is listed at 0.0, under ["Other"], as
    available. *)
Lemma get_menu_fills_defaults_witness :
  exists items,
    get_menu (Some soup_db) = (Some (after_call soup_db), Returns items) /\
    Forall2 rendered (documents_of soup_db "menuitem") items.
Proof.
  apply (get_menu_fills_defaults soup_db).
  - reflexivity.
  - change (documents_of soup_db "menuitem") with [soup].
    apply List.Forall_cons; [|apply List.Forall_nil].
    unfold renderable, optional_text. vm_compute. repeat split. by exists "Soup".
Defined.

(** A stored dish without a name: the store answers the read, and [get_menu]
    ends with the [ValidationError] of the model, a server error. *)
Lemma get_menu_nameless_counterexample :
  documents_of nameless_db "menuitem" = [nameless_dish] /\
  nameless_dish !! "name" = None /\
  next_fault nameless_db = None /\
  get_menu (Some nameless_db) = (Some nameless_db, Raises (ValidationError "name")) /\
  http_status 200 (get_menu (Some nameless_db)).2 = 500.
Proof. repeat split; vm_compute; reflexivity. Qed.


(** ** Validated requests *)





(** The example of the spec: two dishes at 10.99 and one at 3.75 are stored
    with subtotal 25.73, tax 2.06 and total 27.79, and 27.79 is returned. *)
Theorem spec_example_amounts :
  amounts_of <$>
    stored (create_order example_str (example_order spec_items) (Some empty_db)).1
      "order" =
  [(Some (VFloat (decimal 2573 100)), Some (VFloat (decimal 206 100)),
    Some (VFloat (decimal 2779 100)))] /\
  (create_order example_str (example_order spec_items) (Some empty_db)).2 =
  Returns {| OrderReply.id := "0"; OrderReply.total := decimal 2779 100 |}.
Proof. split; vm_compute; reflexivity. Qed.

(** ** Round trips through the models *)

Lemma as_optional_str_opt_str loc o : as_optional_str loc (opt_str o) = Returns o.
Proof. by destruct o. Qed.

Lemma MenuItem_init_fields m :
  valid_menu_item m ->
  MenuItem_init (VStr (MenuItem.name m)) (opt_str (MenuItem.description m))
    (VFloat (MenuItem.price m)) (VStr (MenuItem.category m))
    (opt_str (MenuItem.image_url m)) (VBool (MenuItem.is_available m)) = Returns m.
Proof.
  intros Hprice. unfold MenuItem_init. simpl.
  rewrite !as_optional_str_opt_str. simpl.
  unfold ge_float. rewrite Hprice. simpl. by destruct m.
Qed.

Lemma MenuItem_document_lookup m :
  (to_document m : Doc) !! "name" = Some (VStr (MenuItem.name m)) /\
  (to_document m : Doc) !! "description" = Some (opt_str (MenuItem.description m)) /\
  (to_document m : Doc) !! "price" = Some (VFloat (MenuItem.price m)) /\
  (to_document m : Doc) !! "category" = Some (VStr (MenuItem.category m)) /\
  (to_document m : Doc) !! "image_url" = Some (opt_str (MenuItem.image_url m)) /\
  (to_document m : Doc) !! "is_available" = Some (VBool (MenuItem.is_available m)).
Proof. repeat split; vm_compute; reflexivity. Qed.

(** A stored menu item, with whatever identifier, is listed as itself. *)
Lemma menu_item_of_stored v m :
  valid_menu_item m -> menu_item_of (<["_id" := v]> (to_document m)) = Returns m.
Proof.
  intros Hprice.
  destruct (MenuItem_document_lookup m) as (H1 & H2 & H3 & H4 & H5 & H6).
  unfold menu_item_of, dict_get, dict_get_default.
  rewrite !lookup_insert_ne by done.
  rewrite H1, H2, H3, H4, H5, H6. simpl. by apply MenuItem_init_fields.
Qed.

(** The JSON of a menu item whose price is not below zero is read back by the
    body validation as the same item. *)
Theorem MenuItem_dump_validate m :
  valid_menu_item m -> MenuItem_validate (VDict (to_document m)) = Returns m.
Proof.
  intros Hprice.
  destruct (MenuItem_document_lookup m) as (H1 & H2 & H3 & H4 & H5 & H6).
  unfold MenuItem_validate, dict_get, dict_get_default.
  rewrite H1, H2, H3, H4, H5, H6. simpl. by apply MenuItem_init_fields.
Qed.

Lemma OrderItem_document_lookup oi :
  (to_document oi : Doc) !! "menu_item_id" = Some (VStr (OrderItem.menu_item_id oi)) /\
  (to_document oi : Doc) !! "name" = Some (VStr (OrderItem.name oi)) /\
  (to_document oi : Doc) !! "unit_price" = Some (VFloat (OrderItem.unit_price oi)) /\
  (to_document oi : Doc) !! "quantity" = Some (VInt (OrderItem.quantity oi)) /\
  (to_document oi : Doc) !! "notes" = Some (opt_str (OrderItem.notes oi)).
Proof. repeat split; vm_compute; reflexivity. Qed.

(** The JSON of an order item with [unit_price >= 0] and [quantity >= 1] is
    read back by the body validation as the same item. *)
Theorem OrderItem_dump_validate oi :
  valid_item oi -> OrderItem_validate (VDict (to_document oi)) = Returns oi.
Proof.
  intros [Hprice Hqty].
  destruct (OrderItem_document_lookup oi) as (H1 & H2 & H3 & H4 & H5).
  unfold OrderItem_validate, dict_get.
  rewrite H1, H2, H3, H4, H5. simpl.
  unfold OrderItem_init. simpl. unfold ge_float. rewrite Hprice. simpl.
  unfold ge_int. destruct (Z.leb_spec 1 (OrderItem.quantity oi)); [|lia]. simpl.
  rewrite as_optional_str_opt_str. simpl. by destruct oi.
Qed.

(** ** Adding to the menu *)

Lemma traverse_app {A B} (f : A -> outcome exn B) l1 l2 :
  traverse f (l1 ++ l2) =
  do bs1 <- traverse f l1; do bs2 <- traverse f l2; Returns (bs1 ++ bs2).
Proof.
  induction l1 as [|x rest IH]; simpl.
  - by destruct (traverse f l2).
  - destruct (f x); simpl; [|done]. rewrite IH.
    destruct (traverse f rest); simpl; [|done].
    by destruct (traverse f l2).
Qed.

Lemma calls_succeed_le n m d : (n <= m)%nat -> calls_succeed m d -> calls_succeed n d.
Proof.
  unfold calls_succeed. intros Hle Hm.
  replace n with (n `min` m)%nat by lia. rewrite <- take_take.
  by apply Forall_take.
Qed.


(** On a store that answers two calls and whose menu [get_menu] can list, a
    valid item added by [add_menu_item] is listed by the next [get_menu]
    after the items listed before, as it was given; [add_menu_item] returns
    the text of the identifier the store gave it. *)
Theorem add_menu_item_then_get_menu py_str d item items :
  calls_succeed 2 d ->
  valid_menu_item item ->
  (get_menu (Some d)).2 = Returns items ->
  (add_menu_item py_str item (Some d)).2 = Returns (py_str (VOid (next_id d))) /\
  (get_menu (add_menu_item py_str item (Some d)).1).2 = Returns (items ++ [item]).
Proof.
  intros Hok Hitem Hbefore.
  destruct (calls_succeed_next _ _ Hok) as [Hnext Hrest].
  destruct (calls_succeed_next _ _ Hrest) as [Hnext' _].
  rewrite get_menu_run in Hbefore. unfold get_documents in Hbefore.
  rewrite store_call_ok in Hbefore by done. simpl in Hbefore.
  change (documents_of (after_call d) "menuitem") with (documents_of d "menuitem")
    in Hbefore.
  unfold add_menu_item, try_except, bind, ret.
  rewrite create_document_ok by done. simpl. split; [done|].
  rewrite get_menu_run. unfold get_documents.
  rewrite store_call_ok by done. simpl.
  change (documents_of (after_call ?x) "menuitem") with (documents_of x "menuitem").
  rewrite documents_of_with_document, traverse_app, Hbefore. simpl.
  by rewrite menu_item_of_stored.
Qed.

Lemma add_menu_item_then_get_menu_witness :
  (add_menu_item example_str lemonade (Some soup_db)).2 =
    Returns (example_str (VOid (next_id soup_db))) /\
  (get_menu (add_menu_item example_str lemonade (Some soup_db)).1).2 =
    Returns ([soup_item] ++ [lemonade]).
Proof.
  apply (add_menu_item_then_get_menu example_str soup_db lemonade [soup_item]).
  - unfold calls_succeed. simpl. apply List.Forall_nil.
  - vm_compute. reflexivity.
  - vm_compute. reflexivity.
Defined.

Lemma MenuItem_dump_validate_witness :
  MenuItem_validate (VDict (to_document lemonade)) = Returns lemonade.
Proof. apply (MenuItem_dump_validate lemonade). vm_compute. reflexivity. Defined.

Lemma OrderItem_dump_validate_witness :
  OrderItem_validate (VDict (to_document eighth_item)) = Returns eighth_item.
Proof.
  apply (OrderItem_dump_validate eighth_item).
  split; [vm_compute; reflexivity|vm_compute; discriminate].
Defined.

(** ** More on seeding *)

Lemma calls_succeed_with_documents n d collection_name docs :
  calls_succeed (length docs + n) d ->
  calls_succeed n (with_documents d collection_name docs).
Proof.
  revert d. induction docs as [|doc rest IH]; intros d; simpl; [done|].
  intros Hok. apply IH. by apply calls_succeed_with_document.
Qed.

(** The loop of [seed_menu] when the write of the document at index [k]
    fails: the documents before it stay in the store. *)
Lemma seed_loop_fault py_str msg docs : forall d acc k,
  (k < length docs)%nat ->
  calls_succeed k d ->
  faults d !! k = Some (Some msg) ->
  for_each docs
    (fun s inserted =>
       let* _ := create_document py_str "menuitem" s in
       ret (inserted + 1))
    acc (Some d) =
  (Some (after_call (with_documents d "menuitem" (take k docs))), Raises msg).
Proof.
  induction docs as [|s rest IH]; intros d acc k Hk Hok Hfault; simpl in Hk; [lia|].
  destruct k as [|k]; simpl.
  - assert (Hnext : next_fault d = Some msg).
    { unfold next_fault. destruct (faults d) as [|[?|] ?]; simpl in *; congruence. }
    unfold bind at 1. unfold bind at 1. by rewrite (create_document_fault _ _ _ _ msg).
  - destruct (calls_succeed_next _ _ Hok) as [Hnext Hrest].
    unfold bind at 1. unfold bind at 1. rewrite create_document_ok by done.
    unfold ret at 1. apply IH; [lia|done|].
    simpl. rewrite <- Hfault. by destruct (faults d).
Qed.

(** [seed_menu] is not transactional: when the store answers the count and
    the first [k] writes and fails on the next one with [msg], the request
    ends with [HTTPException(status_code=500, detail=msg)] and the first [k]
    samples stay in the menu. *)
Theorem seed_menu_partial py_str d k msg :
  documents_of d "menuitem" = [] ->
  (k < 5)%nat ->
  calls_succeed (S k) d ->
  faults d !! S k = Some (Some msg) ->
  exists d',
    seed_menu py_str (Some d) = (Some d', Raises (HTTPException 500 msg)) /\
    documents_of d' "menuitem" =
      imap (fun i doc => <["_id" := VOid (next_id d + N.of_nat i)]> doc)
        (take k samples).
Proof.
  intros Hempty Hk Hok Hfault.
  destruct (calls_succeed_next _ _ Hok) as [Hnext Hrest].
  assert (Hcount : count_documents "menuitem" (Some d) =
                   (Some (after_call d),
                    Returns (Z.of_nat (length (documents_of d "menuitem")))))
    by (unfold count_documents; by rewrite store_call_ok).
  exists (after_call (with_documents (after_call d) "menuitem" (take k samples))).
  split.
  - unfold seed_menu.
    erewrite try_except_raises; [reflexivity|].
    erewrite bind_returns by reflexivity.
    change (bool_decide (is_Some (Some d))) with true. cbv iota.
    erewrite bind_returns by exact Hcount. rewrite Hempty.
    change (Z.of_nat (length (@nil Doc)) >? 0) with false. cbv iota.
    apply bind_raises. apply seed_loop_fault; [done|done|].
    simpl. rewrite <- Hfault. by destruct (faults d).
  - change (documents_of (after_call ?x) "menuitem") with (documents_of x "menuitem").
    rewrite documents_of_with_documents.
    change (documents_of (after_call d) "menuitem") with (documents_of d "menuitem").
    by rewrite Hempty.
Qed.

Lemma seed_menu_partial_witness :
  exists d',
    seed_menu example_str (Some disk_full_db) =
      (Some d', Raises (HTTPException 500 "disk full")) /\
    documents_of d' "menuitem" =
      imap (fun i doc => <["_id" := VOid (next_id disk_full_db + N.of_nat i)]> doc)
        (take 2 samples).
Proof.
  apply (seed_menu_partial example_str disk_full_db 2 "disk full").
  - reflexivity.
  - lia.
  - unfold calls_succeed. simpl. repeat apply List.Forall_cons; try done.
  - reflexivity.
Defined.

(** What [seed_menu] does on a menu that holds a record. *)
Lemma seed_menu_populated py_str d :
  next_fault d = None ->
  documents_of d "menuitem" <> [] ->
  seed_menu py_str (Some d) =
  (Some (after_call d),
   Returns {| SeedReply.inserted := 0;
              SeedReply.message := Some "Menu already populated" |}).
Proof.
  intros Hnext Hdocs.
  assert (Hcount : count_documents "menuitem" (Some d) =
                   (Some (after_call d),
                    Returns (Z.of_nat (length (documents_of d "menuitem")))))
    by (unfold count_documents; by rewrite store_call_ok).
  unfold seed_menu. apply try_except_returns.
  erewrite bind_returns by reflexivity.
  change (bool_decide (is_Some (Some d))) with true. cbv iota.
  erewrite bind_returns by exact Hcount.
  replace (Z.of_nat (length (documents_of d "menuitem")) >? 0) with true; [done|].
  symmetry. apply Z.gtb_lt. destruct (documents_of d "menuitem"); [done|simpl; lia].
Qed.

(** Seeding is idempotent: on a store that answers seven calls, whatever the
    menu held before, a second [seed_menu] right after the first returns
    [inserted = 0] and changes no collection. *)
Theorem seed_menu_twice py_str d :
  calls_succeed 7 d ->
  (seed_menu py_str (seed_menu py_str (Some d)).1).2 =
    Returns {| SeedReply.inserted := 0;
               SeedReply.message := Some "Menu already populated" |} /\
  contents (seed_menu py_str (seed_menu py_str (Some d)).1).1 =
    contents (seed_menu py_str (Some d)).1.
Proof.
  intros Hok.
  rewrite (seed_menu_run py_str d) by (by eapply calls_succeed_le; [|exact Hok]; lia).
  destruct (calls_succeed_next _ _ Hok) as [Hnext Hrest].
  destruct (documents_of d "menuitem") as [|doc docs] eqn:Hdocs; cbn [fst snd].
  - rewrite seed_menu_populated; [done| |].
    + apply (calls_succeed_with_documents 1 (after_call d) "menuitem" samples) in Hrest.
      by apply calls_succeed_next in Hrest as [? _].
    + rewrite documents_of_with_documents. unfold samples. simpl.
      by destruct (documents_of _ _).
  - rewrite seed_menu_populated; [done| |].
    + by apply calls_succeed_next in Hrest as [? _].
    + change (documents_of (after_call d) "menuitem") with (documents_of d "menuitem").
      by rewrite Hdocs.
Qed.

Lemma seed_menu_twice_witness :
  (seed_menu example_str (seed_menu example_str (Some empty_db)).1).2 =
    Returns {| SeedReply.inserted := 0;
               SeedReply.message := Some "Menu already populated" |} /\
  contents (seed_menu example_str (seed_menu example_str (Some empty_db)).1).1 =
    contents (seed_menu example_str (Some empty_db)).1.
Proof.
  apply (seed_menu_twice example_str empty_db).
  unfold calls_succeed. simpl. apply List.Forall_nil.
Defined.

(** [get_menu] reads six fields of a document and no other: the identifier
    the store adds changes nothing. *)
Lemma menu_item_of_ignores_id v doc :
  menu_item_of (<["_id" := v]> doc) = menu_item_of doc.
Proof.
  unfold menu_item_of, dict_get, dict_get_default.
  by rewrite !lookup_insert_ne by done.
Qed.

Lemma traverse_menu_items_stored (f : nat -> Value) docs :
  traverse menu_item_of (imap (fun i doc => <["_id" := f i]> doc) docs) =
  traverse menu_item_of docs.
Proof.
  revert f. induction docs as [|doc rest IH]; intros f; simpl; [done|].
  rewrite menu_item_of_ignores_id. destruct (menu_item_of doc); simpl; [|done].
  by rewrite <- (IH (f ∘ S)).
Qed.

Lemma menu_item_of_document m :
  valid_menu_item m -> menu_item_of (to_document m) = Returns m.
Proof.
  intros Hm. rewrite <- (menu_item_of_ignores_id VNone). by apply menu_item_of_stored.
Qed.

Lemma traverse_menu_item_documents items :
  Forall valid_menu_item items ->
  traverse menu_item_of (to_document <$> items) = Returns items.
Proof.
  induction 1 as [|m rest Hm _ IH]; [done|].
  rewrite fmap_cons. cbn [traverse].
  rewrite (menu_item_of_document m Hm). cbn [pure_bind]. by rewrite IH.
Qed.

(** After [seed_menu] has filled an empty menu, on a store that answers
    seven calls, [get_menu] lists five items, and they are the samples:
    dumped field by field they give back the five sample documents. *)
Theorem seed_menu_then_get_menu py_str d :
  calls_succeed 7 d ->
  documents_of d "menuitem" = [] ->
  exists items,
    (get_menu (seed_menu py_str (Some d)).1).2 = Returns items /\
    length items = 5%nat /\
    to_document <$> items = samples.
Proof.
  intros Hok Hempty.
  rewrite (seed_menu_run py_str d) by (by eapply calls_succeed_le; [|exact Hok]; lia).
  rewrite Hempty. cbn [fst snd].
  destruct (calls_succeed_next _ _ Hok) as [Hnext Hrest].
  apply (calls_succeed_with_documents 1 (after_call d) "menuitem" samples) in Hrest.
  apply calls_succeed_next in Hrest as [Hnext' _].
  set (items :=
    [ sample_item "Margherita Pizza" "Classic pizza with tomato, mozzarella, basil"
        (decimal 1099 100) "Mains"
        "https://images.unsplash.com/photo-1548365328-9f547fb0953c";
      sample_item "Caesar Salad" "Romaine, parmesan, croutons, caesar dressing"
        (decimal 85 10) "Starters"
        "https://images.unsplash.com/photo-1551183053-bf91a1d81141";
      sample_item "Spaghetti Bolognese" "Rich beef ragu over spaghetti"
        (decimal 1325 100) "Mains"
        "https://images.unsplash.com/photo-1523986371872-9d3ba2e2a389";
      sample_item "Lemonade" "Freshly squeezed lemonade"
        (decimal 375 100) "Drinks"
        "https://images.unsplash.com/photo-1497534446932-c925b458314e";
      sample_item "Chocolate Brownie" "Warm brownie with vanilla ice cream"
        (decimal 6 1) "Desserts"
        "https://images.unsplash.com/photo-1606313564200-e75d5e30476e" ]).
  assert (Hsamples : samples = to_document <$> items) by reflexivity.
  exists items. split; [|by split].
  rewrite get_menu_run. unfold get_documents.
  rewrite store_call_ok by done. cbn [fst snd apply_limit].
  change (documents_of (after_call ?x) "menuitem") with (documents_of x "menuitem").
  rewrite documents_of_with_documents.
  change (documents_of (after_call d) "menuitem") with (documents_of d "menuitem").
  rewrite Hempty, app_nil_l.
  rewrite (traverse_menu_items_stored (fun i => VOid (next_id (after_call d) + N.of_nat i))).
  rewrite Hsamples. apply traverse_menu_item_documents.
  subst items. repeat apply List.Forall_cons; try apply List.Forall_nil;
    vm_compute; reflexivity.
Qed.

Lemma seed_menu_then_get_menu_witness :
  exists items,
    (get_menu (seed_menu example_str (Some empty_db)).1).2 = Returns items /\
    length items = 5%nat /\
    to_document <$> items = samples.
Proof.
  apply (seed_menu_then_get_menu example_str empty_db).
  - unfold calls_succeed. simpl. apply List.Forall_nil.
  - reflexivity.
Defined.

(** ** The failures of [create_order] *)

Lemma shr_fexp_exponent m e l :
  snd (shr_fexp prec emax m e l) = Z.max e (fexp prec emax (Zdigits2 m + e)).
Proof.
  unfold shr_fexp, shr.
  destruct (fexp prec emax (Zdigits2 m + e) - e) eqn:Hn; simpl; lia.
Qed.

Lemma digits2_pos_gt p : Zpos p < 2 ^ Zpos (digits2_pos p).
Proof.
  rewrite digits2_pos_size. pose proof (Pos.size_gt p) as H.
  apply Pos2Z.pos_lt_pos in H. by rewrite Pos2Z.inj_pow in H.
Qed.

(** An [int] of 2^1024 or more does not convert to a float. *)
Lemma of_int_overflow n : 2 ^ 1024 <= n -> of_int n = None.
Proof.
  intros Hn. destruct n as [|p|p]; try lia.
  assert (Hd : 1024 < Zpos (digits2_pos p)).
  { pose proof (digits2_pos_gt p). apply (Z.pow_lt_mono_r_iff 2); lia. }
  unfold of_int, binary_normalize, binary_round, shl_align.
  assert (Hfexp : fexp prec emax (Z.pos (digits2_pos p) + 0) =
                  Z.pos (digits2_pos p) - 53)
    by (unfold fexp, emin, prec, emax; lia).
  rewrite Hfexp.
  destruct (Z.pos (digits2_pos p) - 53 - 0) eqn:Hshift; try lia.
  unfold binary_round_aux.
  destruct (shr_fexp prec emax (Zpos p) 0 loc_Exact) as [r1 e1] eqn:H1.
  pose proof (shr_fexp_pos (Zpos p) 0 loc_Exact) as Hpos1.
  pose proof (shr_fexp_exponent (Zpos p) 0 loc_Exact) as Hexp1.
  rewrite H1 in Hpos1, Hexp1. simpl in Hpos1, Hexp1. simpl Zdigits2 in Hexp1.
  rewrite Hfexp in Hexp1.
  destruct Hpos1 as [Hr1 He1]; [lia|unfold emin, prec, emax; lia|].
  set (m1 := round_nearest_even (shr_m r1) (loc_of_shr_record r1)).
  assert (Hm1 : 0 < m1)
    by (pose proof (round_nearest_even_ge (shr_m r1) (loc_of_shr_record r1)); lia).
  destruct (shr_fexp prec emax m1 e1 loc_Exact) as [r2 e2] eqn:H2.
  pose proof (shr_fexp_pos m1 e1 loc_Exact Hm1 He1) as [Hr2 _].
  pose proof (shr_fexp_exponent m1 e1 loc_Exact) as Hexp2.
  rewrite H2 in Hr2, Hexp2. simpl in Hr2, Hexp2.
  destruct (shr_m r2) as [|m2|m2]; try lia.
  destruct (Z.leb_spec e2 (emax - prec)) as [Hle|_]; [|done].
  unfold emax, prec in Hle. lia.
Qed.

Lemma sum_amounts_overflow items oi :
  oi ∈ items -> of_int (OrderItem.quantity oi) = None ->
  forall acc, sum_amounts acc items = Raises OverflowError.
Proof.
  intros Hin Hoi.
  induction Hin as [oi rest|oi other rest Hin IH]; intros acc; simpl.
  - unfold line_amount. by rewrite Hoi.
  - unfold line_amount. destruct (of_int (OrderItem.quantity other)); simpl; [|done].
    by apply IH.
Qed.

Lemma create_order_sum_raises py_str payload st e :
  sum_amounts zero (CreateOrderRequest.items payload) = Raises e ->
  create_order py_str payload st = (st, Raises e).
Proof. intros H. unfold create_order, bind, lift. by rewrite H. Qed.

(** An item whose quantity is 2^1024 or more cannot be priced: the
    conversion of the quantity to a float raises [OverflowError], which
    [create_order] does not catch.  The request ends in a server error (500)
    before any call to the store, which is left exactly as it was. *)
Theorem create_order_huge_quantity py_str payload st oi :
  oi ∈ CreateOrderRequest.items payload ->
  2 ^ 1024 <= OrderItem.quantity oi ->
  create_order py_str payload st = (st, Raises OverflowError) /\
  http_status 201 (create_order py_str payload st).2 = 500.
Proof.
  intros Hin Hqty.
  assert (Hrun : create_order py_str payload st = (st, Raises OverflowError)).
  { apply create_order_sum_raises, (sum_amounts_overflow _ oi); [done|].
    by apply of_int_overflow. }
  by rewrite Hrun.
Qed.

Lemma create_order_huge_quantity_witness :
  create_order example_str (example_order [eighth_item; huge_item]) (Some empty_db) =
    (Some empty_db, Raises OverflowError) /\
  http_status 201
    (create_order example_str (example_order [eighth_item; huge_item]) (Some empty_db)).2
  = 500.
Proof.
  apply (create_order_huge_quantity example_str
           (example_order [eighth_item; huge_item]) (Some empty_db) huge_item).
  - apply list_elem_of_further, list_elem_of_here.
  - vm_compute. discriminate.
Defined.

(** For a request whose items satisfy [unit_price >= 0] and [quantity >= 1],
    the amounts [create_order] computes always pass the [ge=0] constraints of
    [Order]: the request never ends in a [ValidationError].  It returns a
    total that is not below zero, or fails on the conversion of a quantity
    ([OverflowError]), or fails with the store
    ([HTTPException(status_code=500)] with the store's message). *)
Theorem create_order_valid_items_outcomes py_str payload st :
  Forall valid_item (CreateOrderRequest.items payload) ->
  match (create_order py_str payload st).2 with
  | Returns reply => leb zero (OrderReply.total reply) = true
  | Raises e =>
      e = OverflowError \/
      exists msg, store_failure st = Some msg /\ e = HTTPException 500 msg
  end.
Proof.
  intros Hvalid.
  destruct (sum_amounts zero (CreateOrderRequest.items payload)) as [S|e] eqn:Hsum.
  - rewrite (create_order_valid py_str payload S) by done.
    pose proof (create_document_cases py_str "order" (order_of payload S) st) as Hdoc.
    destruct (create_document py_str "order" _ st) as [st' [new_id|msg]]; simpl.
    + assert (HS : nonneg S = true)
        by exact (sum_amounts_nonneg _ zero S Hvalid eq_refl Hsum).
      rewrite leb_zero_nonneg. apply (order_amounts_nonneg S HS).
    + right. exists msg. by destruct Hdoc.
  - rewrite (create_order_sum_raises py_str payload st e Hsum). simpl.
    left. by eapply sum_amounts_raises.
Qed.

Lemma create_order_valid_items_outcomes_witness :
  match (create_order example_str (example_order spec_items) (Some failing_db)).2 with
  | Returns reply => leb zero (OrderReply.total reply) = true
  | Raises e =>
      e = OverflowError \/
      exists msg,
        store_failure (Some failing_db) = Some msg /\ e = HTTPException 500 msg
  end.
Proof.
  apply (create_order_valid_items_outcomes example_str (example_order spec_items)
           (Some failing_db)).
  valid_items.
Defined.

(** An order without items is accepted: on a store that takes the write,
    [create_order] stores an order whose three amounts are 0.0 and returns
    the total 0.0. *)
Theorem create_order_no_items py_str payload d :
  CreateOrderRequest.items payload = [] ->
  next_fault d = None ->
  (create_order py_str payload (Some d)).2 =
    Returns {| OrderReply.id := py_str (VOid (next_id d)); OrderReply.total := zero |} /\
  amounts_of <$> stored (create_order py_str payload (Some d)).1 "order" =
    (amounts_of <$> stored (Some d) "order") ++
    [(Some (VFloat zero), Some (VFloat zero), Some (VFloat zero))].
Proof.
  intros Hitems Hnext.
  rewrite (create_order_valid py_str payload zero)
    by (rewrite Hitems; first [apply List.Forall_nil|reflexivity]).
  rewrite create_document_ok by done. cbn [fst snd stored].
  split; [done|].
  rewrite documents_of_with_document, fmap_app. f_equal.
Qed.

Lemma create_order_no_items_witness :
  (create_order example_str (example_order []) (Some empty_db)).2 =
    Returns {| OrderReply.id := example_str (VOid (next_id empty_db));
               OrderReply.total := zero |} /\
  amounts_of <$> stored (create_order example_str (example_order []) (Some empty_db)).1
                   "order" =
    (amounts_of <$> stored (Some empty_db) "order") ++
    [(Some (VFloat zero), Some (VFloat zero), Some (VFloat zero))].
Proof.
  apply (create_order_no_items example_str (example_order []) empty_db); reflexivity.
Defined.

(** ** More on listing *)

Lemma map_order_other py_str doc key :
  key <> "id" -> key <> "_id" -> map_order py_str doc !! key = doc !! key.
Proof.
  intros H1 H2. unfold map_order.
  rewrite lookup_delete_ne by done. by rewrite lookup_insert_ne.
Qed.

(** [map_order] touches two keys only: every other field of the record is
    as stored.  The new [id] is the text of the stored [_id], and the text
    of [None] when the record has no [_id]; an [id] the record already had
    is replaced. *)
Theorem map_order_fields py_str doc :
  (forall key, key <> "id" -> key <> "_id" ->
     map_order py_str doc !! key = doc !! key) /\
  (forall v, doc !! "_id" = Some v ->
     map_order py_str doc !! "id" = Some (VStr (py_str v))) /\
  (doc !! "_id" = None ->
     map_order py_str doc !! "id" = Some (VStr (py_str VNone))).
Proof.
  split; [intros key; apply map_order_other|].
  split; [intros v Hv|intros Hnone]; rewrite map_order_id; unfold dict_get.
  - by rewrite Hv.
  - by rewrite Hnone.
Qed.

Lemma map_order_fields_witness :
  map_order example_str (stored_order 7) !! "status" = stored_order 7 !! "status" /\
  map_order example_str (stored_order 7) !! "id" = Some (VStr (example_str (VOid 7))) /\
  map_order example_str soup !! "id" = Some (VStr (example_str VNone)).
Proof.
  split; [|split].
  - by apply (proj1 (map_order_fields example_str (stored_order 7))).
  - apply (proj1 (proj2 (map_order_fields example_str (stored_order 7)))).
    reflexivity.
  - apply (proj2 (proj2 (map_order_fields example_str soup))). reflexivity.
Defined.

(** [list_orders] only reads.  When it returns, the store answered, no
    collection has changed, and the records are the first [limit] stored
    orders, in store order, each put through [map_order].  When it raises,
    the store failed with some message [msg], what is raised is
    [HTTPException(status_code=500, detail=msg)], and no collection has
    changed either. *)
Theorem list_orders_outcomes py_str limit st :
  match list_orders py_str limit st with
  | (st', Returns docs) =>
      store_failure st = None /\
      contents st' = contents st /\
      docs = map_order py_str <$>
               take (Z.to_nat (default 50 limit)) (stored st "order")
  | (st', Raises e) =>
      exists msg,
        store_failure st = Some msg /\ e = HTTPException 500 msg /\
        contents st' = contents st
  end.
Proof.
  unfold list_orders, try_except, bind, get_documents, store_call, ret, raise.
  destruct st as [d|]; simpl.
  - destruct (next_fault d) as [msg|] eqn:Hnext; simpl; [by exists msg|done].
  - by eexists.
Qed.

(** An order placed by [create_order] is the last record of the next
    [list_orders], as long as the limit is above the number of orders stored
    before: the record's [id] is the identifier [create_order] returned, its
    [total] the total it returned, and its status ["pending"]. *)
Theorem create_order_then_list_orders py_str payload d S limit :
  Forall valid_item (CreateOrderRequest.items payload) ->
  sum_amounts zero (CreateOrderRequest.items payload) = Returns S ->
  calls_succeed 2 d ->
  (length (documents_of d "order") < Z.to_nat (default 50%Z limit))%nat ->
  exists reply doc,
    (create_order py_str payload (Some d)).2 = Returns reply /\
    last (records_of
            (list_orders py_str limit (create_order py_str payload (Some d)).1).2) =
      Some doc /\
    doc !! "id" = Some (VStr (OrderReply.id reply)) /\
    doc !! "total" = Some (VFloat (OrderReply.total reply)) /\
    doc !! "status" = Some (VStr "pending").
Proof.
  intros Hvalid Hsum Hok Hlimit.
  destruct (calls_succeed_next _ _ Hok) as [Hnext Hrest].
  assert (Hnext' : next_fault (with_document d "order"
                                 (to_document (order_of payload S))) = None)
    by (by apply calls_succeed_next in Hrest as [? _]).
  rewrite (create_order_valid py_str payload S) by done.
  rewrite create_document_ok by done. cbn [fst snd].
  set (new := <["_id" := VOid (next_id d)]> (to_document (order_of payload S)) : Doc).
  exists {| OrderReply.id := py_str (VOid (next_id d));
            OrderReply.total := computed_total S |}, (map_order py_str new).
  split; [done|].
  split.
  - unfold list_orders, try_except, bind, get_documents, ret.
    rewrite store_call_ok by done. cbn [fst snd records_of apply_limit].
    change (documents_of (after_call ?x) "order") with (documents_of x "order").
    rewrite documents_of_with_document.
    rewrite take_ge by (rewrite length_app; simpl; lia).
    change (map (map_order py_str)) with (fmap (M:=list) (map_order py_str)).
    rewrite fmap_app. apply last_snoc.
  - cbn [OrderReply.id OrderReply.total].
    rewrite map_order_id, !map_order_other by done.
    subst new. unfold dict_get. rewrite lookup_insert_eq.
    split; [done|].
    destruct (Order_document_amounts (VOid (next_id d)) (order_of payload S))
      as (_ & _ & Htotal).
    split; [exact Htotal|]. apply Order_document_status.
Qed.

Lemma create_order_then_list_orders_witness :
  exists reply doc,
    (create_order example_str (example_order spec_items) (Some three_orders_db)).2 =
      Returns reply /\
    last (records_of
            (list_orders example_str None
               (create_order example_str (example_order spec_items)
                  (Some three_orders_db)).1).2) = Some doc /\
    doc !! "id" = Some (VStr (OrderReply.id reply)) /\
    doc !! "total" = Some (VFloat (OrderReply.total reply)) /\
    doc !! "status" = Some (VStr "pending").
Proof.
  apply (create_order_then_list_orders example_str (example_order spec_items)
           three_orders_db (decimal 2573 100) None).
  - valid_items.
  - vm_compute. reflexivity.
  - unfold calls_succeed. simpl. apply List.Forall_nil.
  - vm_compute. lia.
Defined.

Lemma MenuItem_init_validation_only name description price category image_url is_available :
  validation_only
    (MenuItem_init name description price category image_url is_available).
Proof.
  unfold MenuItem_init.
  destruct name; simpl; eauto.
  destruct description; simpl; eauto.
  all: pose proof (as_float_validation_only "price" price) as Hf.
  all: destruct (as_float "price" price) as [x|e]; simpl; [|done].
  all: unfold ge_float; destruct (leb zero x); simpl; eauto.
  all: destruct category; simpl; eauto.
  all: destruct image_url; simpl; eauto.
  all: destruct is_available; simpl; eauto.
Qed.

(** One stored document whose name is missing, or is not a string, makes the
    whole listing fail: on a store that answers the read, [get_menu] returns
    no item at all and ends with the [ValidationError] of [MenuItem], which
    nothing catches (a server error, 500). *)
Theorem get_menu_one_bad_document d doc :
  next_fault d = None ->
  doc ∈ documents_of d "menuitem" ->
  (forall s, doc !! "name" <> Some (VStr s)) ->
  exists loc,
    get_menu (Some d) = (Some (after_call d), Raises (ValidationError loc)) /\
    http_status 200 (get_menu (Some d)).2 = 500.
Proof.
  intros Hnext Hin Hname.
  assert (Hdoc : exists loc, menu_item_of doc = Raises (ValidationError loc)).
  { unfold menu_item_of, MenuItem_init, dict_get at 1.
    destruct (doc !! "name") as [[| | | |s| | |]|] eqn:Hn; simpl; eauto.
    by destruct (Hname s). }
  destruct (traverse_rejects menu_item_of (documents_of d "menuitem") doc) as [loc Hloc];
    [|done|done|].
  { intros y. apply MenuItem_init_validation_only. }
  assert (Hrun : get_menu (Some d) = (Some (after_call d), Raises (ValidationError loc))).
  { rewrite get_menu_run. unfold get_documents.
    rewrite store_call_ok by done. cbn [fst snd apply_limit].
    change (documents_of (after_call d) "menuitem") with (documents_of d "menuitem").
    by rewrite Hloc. }
  exists loc. by rewrite Hrun.
Qed.

Lemma get_menu_one_bad_document_witness :
  exists loc,
    get_menu (Some nameless_db) =
      (Some (after_call nameless_db), Raises (ValidationError loc)) /\
    http_status 200 (get_menu (Some nameless_db)).2 = 500.
Proof.
  apply (get_menu_one_bad_document nameless_db nameless_dish).
  - reflexivity.
  - change (documents_of nameless_db "menuitem") with [nameless_dish].
    apply list_elem_of_here.
  - intros s. vm_compute. discriminate.
Defined.

(** ** What the request models accept *)





(** ** What an order keeps of its request *)

Lemma Order_document_request v o :
  (<["_id" := v]> (to_document o) : Doc) !! "customer" =
    Some (VDict (to_document (Order.customer o))) /\
  (<["_id" := v]> (to_document o) : Doc) !! "items" =
    Some (VList (map (fun oi => VDict (to_document oi)) (Order.items o))) /\
  (<["_id" := v]> (to_document o) : Doc) !! "table_number" =
    Some (opt_str (Order.table_number o)) /\
  (<["_id" := v]> (to_document o) : Doc) !! "pickup" = Some (VBool (Order.pickup o)).
Proof.
  unfold to_document at 1 3 5 6, Order_document.
  repeat split; rewrite lookup_insert_ne by done;
    repeat (first [apply lookup_insert_eq | rewrite lookup_insert_ne by done]).
Qed.

(** The order [create_order] stores for a valid request keeps the customer,
    the items (with the prices and names the client sent), the table number
    and the pickup flag of the request as they were given. *)
Theorem create_order_keeps_request py_str payload d S :
  Forall valid_item (CreateOrderRequest.items payload) ->
  sum_amounts zero (CreateOrderRequest.items payload) = Returns S ->
  next_fault d = None ->
  exists doc,
    last (stored (create_order py_str payload (Some d)).1 "order") = Some doc /\
    doc !! "customer" =
      Some (VDict (to_document (CreateOrderRequest.customer payload))) /\
    doc !! "items" =
      Some (VList (map (fun oi => VDict (to_document oi))
                     (CreateOrderRequest.items payload))) /\
    doc !! "table_number" = Some (opt_str (CreateOrderRequest.table_number payload)) /\
    doc !! "pickup" = Some (VBool (CreateOrderRequest.pickup payload)).
Proof.
  intros Hvalid Hsum Hnext.
  rewrite (create_order_valid py_str payload S) by done.
  rewrite create_document_ok by done. cbn [fst snd stored].
  rewrite documents_of_with_document.
  eexists. split; [apply last_snoc|].
  apply (Order_document_request (VOid (next_id d)) (order_of payload S)).
Qed.

Lemma create_order_keeps_request_witness :
  exists doc,
    last (stored (create_order example_str (example_order spec_items)
                    (Some empty_db)).1 "order") = Some doc /\
    doc !! "customer" =
      Some (VDict (to_document (CreateOrderRequest.customer (example_order spec_items)))) /\
    doc !! "items" =
      Some (VList (map (fun oi => VDict (to_document oi))
                     (CreateOrderRequest.items (example_order spec_items)))) /\
    doc !! "table_number" =
      Some (opt_str (CreateOrderRequest.table_number (example_order spec_items))) /\
    doc !! "pickup" =
      Some (VBool (CreateOrderRequest.pickup (example_order spec_items))).
Proof.
  apply (create_order_keeps_request example_str (example_order spec_items) empty_db
           (decimal 2573 100)).
  - valid_items.
  - vm_compute. reflexivity.
  - reflexivity.
Defined.
